(** * The azure_pipelines scripts: pull-request comments, config loading and
      repository provisioning

    A shallow embedding of
      - [azure_pipelines/pull_requests/pull_request_comment.py] (class [Message]),
      - [azure_pipelines/pull_requests/comment.py],
      - [azure_pipelines/pull_requests/architecture.py],
      - [azure_pipelines/load_env/config.py] (class [CDKConfig]),
      - [azure_pipelines/setup_repo/setup_repo.py] (class [CreateAzureRepo], [main]),
      - [azure_pipelines/logging_config.py],
      - the tags of [app.py].

    The scripts are sequential and talk to the outside through [requests],
    [subprocess], the file system, [os.getenv] and a logger.  Every such
    call is recorded, in program order, in a trace of events; what the
    outside answers is read from a [world].  Python exceptions are an
    explicit [Raise] result, and [try]/[except] is [try_except], which
    tests the class of the exception against the classes the clause names.

    Scope of the model.  A Python [str] is a Rocq [string], one character
    per code point.  [requests.post] and [requests.get] always come back
    with a response: transport failures are not part of the model.  A log
    event records the call of a logger method; whether the handler prints
    it depends on the level set up by [logging_config.get_logger].  Paths
    are POSIX paths.  The file system answers a path with one of the
    cases of [fs_node]; the failures of a system call that are not among
    them (a directory that may not be searched, a loop of symbolic links,
    an I/O error) are not part of the model. *)

From Stdlib Require Import String Ascii List ZArith Bool Lia DecimalString.
Import ListNotations.
Local Open Scope list_scope.
Local Open Scope string_scope.
Set Warnings "-register-all".

(** ** Python values and exceptions *)

(** The values a decoded JSON document is made of; [VNone] is also the
    value of an attribute that has not been set. *)
Inductive value : Type :=
| VNone
| VBool (b : bool)
| VInt (z : Z)
| VFloat (mant exp : Z)
| VStr (s : string)
| VList (l : list value)
| VDict (kv : list (string * value)).

(** Exception classes met in these modules, with [Exception] at the root. *)
Inductive exn_class : Type :=
| Exception
| LookupError | KeyError
| ValueError | JSONDecodeError | UnicodeEncodeError | UnicodeDecodeError
| TypeError | AttributeError
| OSError | FileNotFoundError | NotADirectoryError | IsADirectoryError
| PermissionError
| SubprocessError | CalledProcessError.

Record exn : Type := Exn { exn_cls : exn_class; exn_msg : string }.

Inductive result (A : Type) : Type :=
| Ok (a : A)
| Raise (e : exn).
Arguments Ok {A} a.
Arguments Raise {A} e.

Definition exn_class_eq_dec (a b : exn_class) : {a = b} + {a <> b}.
Proof. decide equality. Defined.

(** The method resolution order of a class: itself, then its bases. *)
Definition mro (c : exn_class) : list exn_class :=
  match c with
  | Exception => [Exception]
  | LookupError => [LookupError; Exception]
  | KeyError => [KeyError; LookupError; Exception]
  | ValueError => [ValueError; Exception]
  | JSONDecodeError => [JSONDecodeError; ValueError; Exception]
  | UnicodeEncodeError => [UnicodeEncodeError; ValueError; Exception]
  | UnicodeDecodeError => [UnicodeDecodeError; ValueError; Exception]
  | TypeError => [TypeError; Exception]
  | AttributeError => [AttributeError; Exception]
  | OSError => [OSError; Exception]
  | FileNotFoundError => [FileNotFoundError; OSError; Exception]
  | NotADirectoryError => [NotADirectoryError; OSError; Exception]
  | IsADirectoryError => [IsADirectoryError; OSError; Exception]
  | PermissionError => [PermissionError; OSError; Exception]
  | SubprocessError => [SubprocessError; Exception]
  | CalledProcessError => [CalledProcessError; SubprocessError; Exception]
  end.

Definition isinstance (e : exn) (c : exn_class) : bool :=
  existsb (fun b => if exn_class_eq_dec b c then true else false) (mro (exn_cls e)).

(** [except (C1, C2, ...)] *)
Definition caught_by (e : exn) (classes : list exn_class) : bool :=
  existsb (isinstance e) classes.

(** Truth value of an object, as [not x] and [if x] test it. *)
Definition truthy (v : value) : bool :=
  match v with
  | VNone => false
  | VBool b => b
  | VInt z => negb (Z.eqb z 0)
  | VFloat m _ => negb (Z.eqb m 0)
  | VStr s => negb (String.eqb s EmptyString)
  | VList l => match l with [] => false | _ => true end
  | VDict kv => match kv with [] => false | _ => true end
  end.

Fixpoint dict_lookup (kv : list (string * value)) (k : string) : option value :=
  match kv with
  | [] => None
  | (k', v) :: rest => if String.eqb k' k then Some v else dict_lookup rest k
  end.

Definition squote (s : string) : string := "'" ++ s ++ "'".

Definition type_name (v : value) : string :=
  match v with
  | VNone => "NoneType"
  | VBool _ => "bool"
  | VInt _ => "int"
  | VFloat _ _ => "float"
  | VStr _ => "str"
  | VList _ => "list"
  | VDict _ => "dict"
  end.

(** [v[k]] for a string key [k]. *)
Definition subscript (v : value) (k : string) : result value :=
  match v with
  | VDict kv =>
      match dict_lookup kv k with
      | Some x => Ok x
      | None => Raise (Exn KeyError (squote k))
      end
  | VStr _ => Raise (Exn TypeError "string indices must be integers")
  | VList _ => Raise (Exn TypeError "list indices must be integers or slices, not str")
  | _ => Raise (Exn TypeError (squote (type_name v) ++ " object is not subscriptable"))
  end.

(** [v.get(k, default)]: only a dict has the method. *)
Definition py_get (v : value) (k : string) (default : value) : result value :=
  match v with
  | VDict kv =>
      match dict_lookup kv k with
      | Some x => Ok x
      | None => Ok default
      end
  | _ => Raise (Exn AttributeError
                  (squote (type_name v) ++ " object has no attribute 'get'"))
  end.

(** What [for x in v] goes through. *)
Definition py_iter (v : value) : result (list value) :=
  match v with
  | VList l => Ok l
  | VDict kv => Ok (map (fun p => VStr (fst p)) kv)
  | VStr s => Ok (map (fun c => VStr (String c EmptyString)) (list_ascii_of_string s))
  | _ => Raise (Exn TypeError (squote (type_name v) ++ " object is not iterable"))
  end.

Fixpoint is_substring (needle s : string) : bool :=
  String.prefix needle s
  || match s with
     | EmptyString => false
     | String _ s' => is_substring needle s'
     end.

(** [needle in v] for a string [needle]. *)
Definition py_in (needle : string) (v : value) : result bool :=
  match v with
  | VStr s => Ok (is_substring needle s)
  | VList l =>
      Ok (existsb (fun x => match x with VStr s => String.eqb needle s | _ => false end) l)
  | VDict kv => Ok (existsb (fun p => String.eqb needle (fst p)) kv)
  | _ => Raise (Exn TypeError
                  ("argument of type " ++ squote (type_name v) ++ " is not iterable"))
  end.

(** [str(n)] of an int. *)
Definition str_of_Z (z : Z) : string := NilZero.string_of_int (Z.to_int z).

(** ** Events and the world *)

Inductive level : Type := DEBUG | INFO | WARNING | ERROR.

Inductive http_method : Type := GET | POST.

(** The [json=] or [data=] argument of a request. *)
Inductive payload : Type :=
| NoPayload
| Json (v : value)
| Data (content : string).

Record http_call : Type := HttpCall {
  call_method : http_method;
  call_url : string;
  call_headers : list (string * string);
  call_payload : payload
}.

Record Response : Type := mkResponse {
  status_code : Z;
  reason : string;
  text : string;
  (** what [response.json()] decodes, [None] when the body is not JSON *)
  json_body : option value
}.

Inductive event : Type :=
| ELog (lvl : level) (msg : string)
| EHttp (c : http_call)
| ERun (argv : list string).

(** What the file system answers for a path.
    - [Absent]: no such file or directory (ENOENT).
    - [BelowFile]: a component of the path that has to be a directory is
      something else, a regular file say (ENOTDIR); this is also the
      answer for the name of a regular file followed by a slash.
    - [BadName]: the name cannot be handed to the system; [node] gives
      this for a name with a NUL character.
    - [RegularFile content readable]: a regular file whose bytes are text
      in the encoding of the locale, [content] being what reading gives.
    - [BinaryFile content complaint readable]: a regular file whose bytes
      are no text in that encoding; [complaint] is what the decoder says. *)
Inductive fs_node : Type :=
| Absent
| Directory
| RegularFile (content : string) (readable : bool)
| BelowFile
| BadName
| BinaryFile (content : string) (complaint : string) (readable : bool).

(** A path as [pathlib] hands it out: its text and its last component. *)
Record path_entry : Type := mkPath { path_str : string; path_name : string }.

(** What [pandas.read_csv] returns. *)
Record DataFrame : Type := mkDataFrame {
  df_columns : list string;
  df_rows : list (list value)
}.

(** Everything outside the program.  The server and the git command see
    the events that came before the call they answer. *)
Record world : Type := mkWorld {
  getenv : string -> option string;
  path_node : string -> fs_node;
  glob : string -> string -> list path_entry;
  json_loads : string -> string + value;
  read_csv : string -> result DataFrame;
  to_markdown : DataFrame -> string;
  py_repr : value -> string;
  server : list event -> http_call -> Response;
  subprocess_exit : list event -> list string -> option exn
}.

(** ** The effect monad: a state, and a result or an exception *)

Definition M (S A : Type) : Type := S -> result A * S.

Definition ret {S A} (a : A) : M S A := fun s => (Ok a, s).

Definition bind {S A B} (m : M S A) (k : A -> M S B) : M S B :=
  fun s =>
    match m s with
    | (Ok a, s') => k a s'
    | (Raise e, s') => (Raise e, s')
    end.

Definition raise {S A} (e : exn) : M S A := fun s => (Raise e, s).

Definition of_result {S A} (r : result A) : M S A := fun s => (r, s).

(** The [except] clauses of a [try], in order: the first clause that
    names a class of the exception handles it; with none, it goes on. *)
Fixpoint handle {S A} (clauses : list (list exn_class * (exn -> M S A)))
    (e : exn) : M S A :=
  match clauses with
  | [] => raise e
  | (classes, handler) :: rest =>
      if caught_by e classes then handler e else handle rest e
  end.

(** [try: body except C1 as e: h1 e except C2 as e: h2 e ...] *)
Definition try_except {S A} (body : M S A)
    (clauses : list (list exn_class * (exn -> M S A))) : M S A :=
  fun s =>
    match body s with
    | (Ok a, s') => (Ok a, s')
    | (Raise e, s') => handle clauses e s'
    end.

(** [for x in xs: body x] *)
Fixpoint for_each {S X} (xs : list X) (body : X -> M S unit) : M S unit :=
  match xs with
  | [] => ret tt
  | x :: rest => bind (body x) (fun _ => for_each rest body)
  end.

Declare Scope py_scope.
Delimit Scope py_scope with py.
Notation "x <- m ;; k" := (bind m (fun x => k))
  (at level 61, m at next level, right associativity) : py_scope.
Notation "m ;; k" := (bind m (fun _ => k))
  (at level 61, right associativity) : py_scope.
Local Open Scope py_scope.

(** A state that carries the trace of events. *)
Class Traced (S : Type) : Type := {
  trace : S -> list event;
  with_trace : list event -> S -> S
}.

#[global] Instance Traced_trace : Traced (list event) := {
  trace := fun t => t;
  with_trace := fun t _ => t
}.

(** An object with mutable attributes, next to the trace. *)
Record state (O : Type) : Type := mkState { self : O; events : list event }.
Arguments mkState {O} self events.
Arguments self {O} s.
Arguments events {O} s.

#[global] Instance Traced_state (O : Type) : Traced (state O) := {
  trace := fun s => events s;
  with_trace := fun t s => mkState (self s) t
}.

Definition get_self {O} : M (state O) O := fun s => (Ok (self s), s).

Definition set_self {O} (f : O -> O) : M (state O) unit :=
  fun s => (Ok tt, mkState (f (self s)) (events s)).

Section Primitives.
Context {S : Type} `{Traced S}.
Variable W : world.

Definition emit (e : event) : M S unit :=
  fun s => (Ok tt, with_trace (trace s ++ [e])%list s).

Definition logger_debug (msg : string) : M S unit := emit (ELog DEBUG msg).
Definition logger_info (msg : string) : M S unit := emit (ELog INFO msg).
Definition logger_warning (msg : string) : M S unit := emit (ELog WARNING msg).
Definition logger_error (msg : string) : M S unit := emit (ELog ERROR msg).
(** [logger.exception] logs at level ERROR (and adds the traceback). *)
Definition logger_exception (msg : string) : M S unit := emit (ELog ERROR msg).

Definition request (c : http_call) : M S Response :=
  fun s => (Ok (server W (trace s) c), with_trace (trace s ++ [EHttp c])%list s).

Definition requests_post (url : string) (headers : list (string * string))
    (body : payload) : M S Response :=
  request (HttpCall POST url headers body).

Definition requests_get (url : string) (headers : list (string * string))
    : M S Response :=
  request (HttpCall GET url headers NoPayload).

(** [subprocess.run(argv, check=True)] *)
Definition subprocess_run (argv : list string) : M S unit :=
  fun s =>
    let s' := with_trace (trace s ++ [ERun argv])%list s in
    match subprocess_exit W (trace s) argv with
    | None => (Ok tt, s')
    | Some e => (Raise e, s')
    end.

End Primitives.

(** [response.json()] *)
Definition response_json (r : Response) : result value :=
  match json_body r with
  | Some v => Ok v
  | None => Raise (Exn JSONDecodeError "Expecting value: line 1 column 1 (char 0)")
  end.

(** What a call on a path meets: a name with a NUL character never
    reaches the system. *)
Definition has_nul (path : string) : bool :=
  existsb (Ascii.eqb zero) (list_ascii_of_string path).

Definition node (W : world) (path : string) : fs_node :=
  if has_nul path then BadName else path_node W path.

(** [open(path, mode)] for reading: the bytes of the file, or the
    exception [open] raises. *)
Definition open_file (W : world) (path : string) : result string :=
  match node W path with
  | Absent =>
      Raise (Exn FileNotFoundError
               ("[Errno 2] No such file or directory: " ++ squote path))
  | BelowFile =>
      Raise (Exn NotADirectoryError ("[Errno 20] Not a directory: " ++ squote path))
  | BadName => Raise (Exn ValueError "embedded null byte")
  | Directory =>
      Raise (Exn IsADirectoryError ("[Errno 21] Is a directory: " ++ squote path))
  | RegularFile content readable
  | BinaryFile content _ readable =>
      if readable then Ok content
      else Raise (Exn PermissionError ("[Errno 13] Permission denied: " ++ squote path))
  end.

(** [open(path)] followed by reading the whole file as text: reading
    raises [UnicodeDecodeError] when the bytes are no text. *)
Definition open_read (W : world) (path : string) : result string :=
  match open_file W path with
  | Ok content =>
      match node W path with
      | BinaryFile _ complaint _ => Raise (Exn UnicodeDecodeError complaint)
      | _ => Ok content
      end
  | Raise e => Raise e
  end.

(** [open(path, "rb")] followed by reading the whole file. *)
Definition open_read_bytes (W : world) (path : string) : result string :=
  open_file W path.

(** [Path(path).is_file()] and [Path(path).exists()]: a path that cannot
    be reached is no file, and does not exist. *)
Definition is_file (W : world) (path : string) : bool :=
  match node W path with
  | RegularFile _ _ | BinaryFile _ _ _ => true
  | _ => false
  end.

Definition path_exists (W : world) (path : string) : bool :=
  match node W path with
  | Absent | BelowFile | BadName => false
  | _ => true
  end.

(** [str.split(sep)] for a separator of one character. *)
Fixpoint split (sep : ascii) (s : string) : list string :=
  match s with
  | EmptyString => [EmptyString]
  | String c rest =>
      if Ascii.eqb c sep then EmptyString :: split sep rest
      else match split sep rest with
           | part :: parts => String c part :: parts
           | [] => [String c EmptyString]
           end
  end.

(** [posixpath.splitroot]: the root of a path ("/", "//" for exactly two
    leading slashes, or nothing) and what comes after it. *)
Definition splitroot (p : string) : string * string :=
  match p with
  | String "/" rest =>
      match rest with
      | String "/" rest' =>
          match rest' with
          | String "/" _ => ("/", rest)
          | _ => ("//", rest')
          end
      | _ => ("/", rest)
      end
  | _ => (EmptyString, p)
  end.

(** [str(Path(file_path))]: empty components and "." components go, and
    with them a leading "./" and a trailing "/"; a path with nothing
    left is ".". *)
Definition Path (file_path : string) : string :=
  let (root, rel) := splitroot file_path in
  let tail :=
    filter (fun x => negb (String.eqb x EmptyString) && negb (String.eqb x "."))
      (split "/" rel) in
  let text := root ++ String.concat "/" tail in
  if String.eqb text EmptyString then "." else text.

(** How an f-string shows a value: [str(v)]. *)
Definition py_str (W : world) (v : value) : string :=
  match v with
  | VNone => "None"
  | VBool true => "True"
  | VBool false => "False"
  | VInt z => str_of_Z z
  | VStr s => s
  | _ => py_repr W v
  end.

(** How an f-string shows the result of [os.getenv] with no default. *)
Definition fmt_env (o : option string) : string :=
  match o with
  | Some s => s
  | None => "None"
  end.

Definition dquote : string := String (ascii_of_nat 34) EmptyString.

(** ** pull_requests/pull_request_comment.py *)

Module pull_request_comment.

Definition API_VERSION : string := "7.1".

Record Message : Type := mkMessage {
  token : option string;
  collection_uri : option string;
  pull_request_id : option string;
  team_project : option string;
  repository_id : option string;
  commit_sha_prefix : string;
  base_url : string
}.

(** [Message.__init__]: everything comes from the environment. *)
Definition __init__ (W : world) : Message :=
  let token := getenv W "SYSTEM_ACCESSTOKEN" in
  let collection_uri := getenv W "SYSTEM_COLLECTIONURI" in
  let pull_request_id := getenv W "SYSTEM_PULLREQUEST_PULLREQUESTID" in
  let team_project := getenv W "SYSTEM_TEAMPROJECT" in
  let repository_id := getenv W "BUILD_REPOSITORY_ID" in
  let source_version :=
    match getenv W "BUILD_SOURCEVERSION" with
    | Some s => s
    | None => EmptyString
    end in
  let commit_sha_prefix :=
    if truthy (VStr source_version) then substring 0 5 source_version
    else EmptyString in
  let base_url :=
    fmt_env collection_uri ++ fmt_env team_project ++ "/_apis/git/repositories/"
    ++ fmt_env repository_id ++ "/pullRequests/" ++ fmt_env pull_request_id in
  mkMessage token collection_uri pull_request_id team_project repository_id
    commit_sha_prefix base_url.

(** The thread that [add_msg] posts: one comment, status active. *)
Definition thread_data (comment : string) : value :=
  VDict [("comments",
          VList [VDict [("parentCommentId", VInt 1);
                        ("content", VStr comment);
                        ("commentType", VInt 1)]]);
         ("status", VInt 1)].

Definition msg_url (self : Message) : string :=
  base_url self ++ "/threads?api-version=" ++ API_VERSION.

Definition msg_headers (self : Message) : list (string * string) :=
  [("content-type", "application/json");
   ("Authorization", "Bearer " ++ fmt_env (token self))].

Definition response_line (response : Response) : string :=
  "Response Code: " ++ str_of_Z (status_code response)
  ++ ", Response Reason: " ++ reason response.

(** [Message.add_msg] *)
Definition add_msg (W : world) (self : Message) (comment : string)
    : M (list event) bool :=
  let data := thread_data comment in
  logger_info ("Sending PR comment to: " ++ msg_url self) ;;
  response <- requests_post W (msg_url self) (msg_headers self) (Json data) ;;
  logger_info (response_line response) ;;
  ret (Z.eqb (status_code response) 200).

Definition file_name (self : Message) : string :=
  "diagram-" ++ commit_sha_prefix self ++ ".png".

Definition attachment_url (self : Message) : string :=
  base_url self ++ "/attachments/" ++ file_name self
  ++ "?api-version=" ++ API_VERSION.

Definition attachment_headers (self : Message) : list (string * string) :=
  [("Content-Type", "application/octet-stream");
   ("Authorization", "Bearer " ++ fmt_env (token self))].

Definition link_comment (W : world) (attachment_ref : value) : string :=
  "[Architecture Diagram](" ++ py_str W attachment_ref ++ ")".

Definition image_comment (W : world) (attachment_ref : value) : string :=
  "<img src=" ++ dquote ++ py_str W attachment_ref ++ dquote
  ++ " alt=" ++ dquote ++ "Architecture Diagram" ++ dquote ++ ">".

(** [Message.upload_attachment_and_comment] *)
Definition upload_attachment_and_comment (W : world) (self : Message)
    (file_path : string) : M (list event) bool :=
  let path := Path file_path in
  if negb (is_file W path) then
    logger_error ("File does not exist: " ++ path) ;;
    ret false
  else
    logger_info ("Uploading attachment: " ++ file_name self ++ " to "
                 ++ attachment_url self) ;;
    file <- of_result (open_read_bytes W path) ;;
    response <- requests_post W (attachment_url self) (attachment_headers self)
                  (Data file) ;;
    logger_info (response_line response) ;;
    if Z.eqb (status_code response) 201 then
      logger_info "File uploaded successfully" ;;
      body <- of_result (response_json response) ;;
      attachment_ref <- of_result (py_get body "url" VNone) ;;
      add_msg W self (link_comment W attachment_ref) ;;
      add_msg W self (image_comment W attachment_ref) ;;
      ret true
    else
      logger_error ("Failed to upload file. Response: " ++ text response) ;;
      ret false.

End pull_request_comment.

(** ** pull_requests/comment.py *)

Module comment.
Import pull_request_comment.

(** [read_output_file] *)
Definition read_output_file (W : world) (file_path : string)
    : M (list event) (option string) :=
  try_except
    (content <- of_result (open_read W file_path) ;;
     ret (Some content))
    [([FileNotFoundError],
      fun _ =>
        logger_exception ("Output file not found: " ++ file_path) ;;
        ret None);
     ([Exception],
      fun e =>
        logger_exception ("Error reading output file: " ++ exn_msg e) ;;
        raise e)].

(** [add_cdk_diff_comment] *)
Definition add_cdk_diff_comment (W : world) (msg : Message)
    (output_content : option string) : M (list event) bool :=
  let comment :=
    match output_content with
    | None => "CDK Diff found no resource is going to change"
    | Some s =>
        if negb (truthy (VStr s))
        then "CDK Diff found no resource is going to change"
        else s
    end in
  logger_info "Adding CDK diff comment" ;;
  add_msg W msg comment.

(** [DataFrame.empty]: some axis has length zero. *)
Definition df_empty (df : DataFrame) : bool :=
  match df_columns df, df_rows df with
  | [], _ => true
  | _, [] => true
  | _, _ => false
  end.

(** The body of the [try] in [add_validation_reports], for one file. *)
Definition report_one (W : world) (msg : Message) (csv_file : path_entry)
    : M (list event) unit :=
  df <- of_result (read_csv W (path_str csv_file)) ;;
  if negb (df_empty df) then
    logger_info ("Adding CDK Validation report from " ++ path_name csv_file) ;;
    posted <- add_msg W msg (to_markdown W df) ;;
    if negb posted then
      logger_error ("Failed to add validation report from " ++ path_name csv_file)
    else ret tt
  else ret tt.

(** [add_validation_reports] *)
Definition add_validation_reports (W : world) (msg : Message)
    (templates_dir : string) : M (list event) unit :=
  let templates_path := Path templates_dir in
  if negb (path_exists W templates_path) then
    logger_warning ("Templates directory not found: " ++ templates_dir)
  else
    for_each (glob W templates_path "*.csv") (fun csv_file =>
      try_except (report_one W msg csv_file)
        [([Exception],
          fun e =>
            logger_exception ("Error processing CSV file " ++ path_str csv_file
                              ++ ": " ++ exn_msg e))]).

(** [main] *)
Definition main (W : world) : M (list event) unit :=
  let msg := __init__ W in
  output_content <- read_output_file W "./output.log" ;;
  posted <- add_cdk_diff_comment W msg output_content ;;
  (if negb posted then logger_error "Failed to add CDK diff comment" else ret tt) ;;
  add_validation_reports W msg "./synth/templates/".

End comment.

(** ** load_env/config.py *)

Module config.

Record CDKConfig : Type := mkCDKConfig {
  _environment : string;
  data : value
}.

(** [json.load] on the content of the file. *)
Definition json_load (W : world) (content : string) : result value :=
  match json_loads W content with
  | inr v => Ok v
  | inl msg => Raise (Exn JSONDecodeError msg)
  end.

Definition config_path (environment : string) : string :=
  "config/" ++ environment ++ ".json".

(** [CDKConfig.load_config] *)
Definition load_config (W : world) : M (state CDKConfig) value :=
  try_except
    (this <- get_self ;;
     content <- of_result (open_read W (config_path (_environment this))) ;;
     v <- of_result (json_load W content) ;;
     set_self (fun o => mkCDKConfig (_environment o) v) ;;
     this <- get_self ;;
     ret (data this))
    [([FileNotFoundError; JSONDecodeError],
      fun e =>
        logger_error ("Failed to load config file: " ++ exn_msg e) ;;
        raise e)].

(** [CDKConfig.__init__]: the attributes are set, then the file is loaded. *)
Definition __init__ (W : world) (environment : string) : M (state CDKConfig) unit :=
  set_self (fun _ => mkCDKConfig environment (VDict [])) ;;
  load_config W ;;
  ret tt.

(** [CDKConfig.get_value] *)
Definition get_value (W : world) (key : string) (default : value)
    : M (state CDKConfig) value :=
  try_except
    (this <- get_self ;;
     of_result (subscript (data this) key))
    [([KeyError],
      fun _ =>
        this <- get_self ;;
        logger_error ("Key " ++ squote key
                      ++ " not found in configuration for environment "
                      ++ squote (_environment this)) ;;
        keys <- of_result (py_iter (data this)) ;;
        logger_debug ("Available keys: " ++ py_repr W (VList keys)) ;;
        ret default)].

End config.

(** ** setup_repo/setup_repo.py *)

Module base64.

Definition alphabet : string :=
  "ABCDEFGHIJKLMNOPQRSTUVWXYZabcdefghijklmnopqrstuvwxyz0123456789+/".

Definition digit (n : N) : ascii :=
  match String.get (N.to_nat (n mod 64)) alphabet with
  | Some c => c
  | None => "="%char
  end.

(** Three bytes give four digits; one or two bytes are padded with [=]. *)
Fixpoint encode_bytes (bs : list N) : string :=
  match bs with
  | [] => EmptyString
  | [a] =>
      let n := (a * 65536)%N in
      String (digit (n / 262144)) (String (digit (n / 4096)) "==")
  | [a; b] =>
      let n := (a * 65536 + b * 256)%N in
      String (digit (n / 262144)) (String (digit (n / 4096))
        (String (digit (n / 64)) "="))
  | a :: b :: c :: rest =>
      let n := (a * 65536 + b * 256 + c)%N in
      String (digit (n / 262144)) (String (digit (n / 4096))
        (String (digit (n / 64)) (String (digit n) (encode_bytes rest))))
  end.

(** [s.encode("ascii")]: the code points, all of which must be below 128. *)
Definition encode_ascii (s : string) : result (list N) :=
  let codes := map N_of_ascii (list_ascii_of_string s) in
  if forallb (fun c => N.ltb c 128) codes then Ok codes
  else Raise (Exn UnicodeEncodeError
                "'ascii' codec can't encode character: ordinal not in range(128)").

(** [base64.b64encode(s.encode("ascii")).decode("ascii")] *)
Definition b64encode_ascii (s : string) : result string :=
  match encode_ascii s with
  | Ok bs => Ok (encode_bytes bs)
  | Raise e => Raise e
  end.

End base64.

Module setup_repo.

Record CreateAzureRepo : Type := mkCreateAzureRepo {
  new_repo_name : string;
  azure_api_version : string;
  parent_project_id : string;
  source_project_name : string;
  organization : string;
  pipeline_stages : list string;
  new_repository_id : value;
  cicd_pull_request_id : value;
  headers : list (string * string)
}.

Definition set_new_repository_id (v : value) (o : CreateAzureRepo) : CreateAzureRepo :=
  mkCreateAzureRepo (new_repo_name o) (azure_api_version o) (parent_project_id o)
    (source_project_name o) (organization o) (pipeline_stages o)
    v (cicd_pull_request_id o) (headers o).

Definition set_cicd_pull_request_id (v : value) (o : CreateAzureRepo) : CreateAzureRepo :=
  mkCreateAzureRepo (new_repo_name o) (azure_api_version o) (parent_project_id o)
    (source_project_name o) (organization o) (pipeline_stages o)
    (new_repository_id o) v (headers o).

(** [CreateAzureRepo.__init__] *)
Definition __init__ (pa_token new_repo_name : string) : result CreateAzureRepo :=
  match base64.b64encode_ascii (":" ++ pa_token) with
  | Raise e => Raise e
  | Ok auth_string =>
      Ok (mkCreateAzureRepo new_repo_name "7.0" "<PROJECT_ID>" "<PROJECT_NAME>"
            "<ORGANIZATION>" ["development"; "pull-request"; "release"]
            VNone VNone
            [("Accept", "application/json");
             ("Authorization", "Basic " ++ auth_string)])
  end.

Definition dev_azure (this : CreateAzureRepo) : string :=
  "https://dev.azure.com/" ++ organization this.

Definition api_version_query (this : CreateAzureRepo) : string :=
  "?api-version=" ++ azure_api_version this.

Definition pipelines_post_url (this : CreateAzureRepo) : string :=
  dev_azure this ++ "/" ++ parent_project_id this ++ "/_apis/pipelines"
  ++ api_version_query this.

Definition pipelines_get_url (this : CreateAzureRepo) : string :=
  dev_azure this ++ "/" ++ source_project_name this ++ "/_apis/pipelines"
  ++ api_version_query this.

Definition repo_post_url (this : CreateAzureRepo) : string :=
  dev_azure this ++ "/_apis/git/repositories" ++ api_version_query this.

Definition repo_get_url (this : CreateAzureRepo) : string :=
  dev_azure this ++ "/" ++ parent_project_id this ++ "/_apis/git/repositories/"
  ++ new_repo_name this ++ api_version_query this.

Definition policy_post_url (this : CreateAzureRepo) : string :=
  dev_azure this ++ "/" ++ source_project_name this
  ++ "/_apis/policy/configurations" ++ api_version_query this.

Definition status_line (response : Response) : string :=
  str_of_Z (status_code response) ++ " - " ++ reason response.

(** The loop of [_handle_pull_request_pipeline] over the pipelines found:
    the first whose name holds both the repository name and
    "pull-request" gives the id, and the loop stops there. *)
Fixpoint search_pipelines (pipelines : list value) : M (state CreateAzureRepo) unit :=
  match pipelines with
  | [] => ret tt
  | pipeline :: rest =>
      this <- get_self ;;
      name <- of_result (py_get pipeline "name" (VStr EmptyString)) ;;
      has_repo <- of_result (py_in (new_repo_name this) name) ;;
      has_pr <- (if has_repo then of_result (py_in "pull-request" name)
                 else ret false) ;;
      if has_pr then
        id <- of_result (subscript pipeline "id") ;;
        set_self (set_cicd_pull_request_id id) ;;
        logger_info ("Found ID for " ++ new_repo_name this ++ "-pull-request")
      else search_pipelines rest
  end.

(** [CreateAzureRepo._handle_pull_request_pipeline] *)
Definition _handle_pull_request_pipeline (W : world) (response : Response)
    : M (state CreateAzureRepo) unit :=
  try_except
    (body <- of_result (response_json response) ;;
     id <- of_result (subscript body "id") ;;
     set_self (set_cicd_pull_request_id id))
    [([KeyError; ValueError],
      fun _ =>
        this <- get_self ;;
        logger_error ("Pipeline " ++ new_repo_name this
                      ++ "-pull-request already exists. Searching for its ID...") ;;
        search_response <- requests_get W (pipelines_get_url this) (headers this) ;;
        if negb (Z.eqb (status_code search_response) 200) then
          logger_error ("Failed to retrieve pipelines: "
                        ++ str_of_Z (status_code search_response))
        else
          try_except
            (body <- of_result (response_json search_response) ;;
             found <- of_result (py_get body "value" (VList [])) ;;
             pipelines <- of_result (py_iter found) ;;
             search_pipelines pipelines)
            [([KeyError; ValueError],
              fun e => logger_error ("Error parsing pipeline data: " ++ exn_msg e))])].

Definition pipeline_path (stage : string) : string :=
  if String.eqb stage "development" then "/azure-pipelines.yml"
  else "/azure-pipelines-" ++ stage ++ ".yml".

Definition pipeline_body (this : CreateAzureRepo) (stage : string) : value :=
  VDict [("name", VStr (new_repo_name this ++ "-" ++ stage));
         ("configuration",
          VDict [("path", VStr (pipeline_path stage));
                 ("repository",
                  VDict [("id", new_repository_id this);
                         ("name", VStr (new_repo_name this));
                         ("type", VStr "azureReposGit")]);
                 ("type", VStr "yaml")]);
         ("folder", VStr ("\" ++ new_repo_name this))].

(** One turn of the loop of [create_pipelines]. *)
Definition create_pipeline (W : world) (stage : string) : M (state CreateAzureRepo) unit :=
  this <- get_self ;;
  response <- requests_post W (pipelines_post_url this) (headers this)
                (Json (pipeline_body this stage)) ;;
  (if String.eqb stage "pull-request"
   then _handle_pull_request_pipeline W response
   else ret tt) ;;
  logger_info ("Pipeline creation status: " ++ status_line response) ;;
  if Z.eqb (status_code response) 200 then
    logger_info "Pipeline creation succeeded"
  else
    logger_error "Pipeline creation failed or pipeline already exists".

(** [CreateAzureRepo.create_pipelines] *)
Definition create_pipelines (W : world) : M (state CreateAzureRepo) unit :=
  this <- get_self ;;
  if negb (truthy (new_repository_id this)) then
    logger_error "Repository ID not set. Create repository first."
  else
    logger_info ("Creating new Azure pipelines on repository: "
                 ++ new_repo_name this) ;;
    for_each (pipeline_stages this) (create_pipeline W).

(** [CreateAzureRepo._get_existing_repo_id] *)
Definition _get_existing_repo_id (W : world) : M (state CreateAzureRepo) bool :=
  this <- get_self ;;
  response <- requests_get W (repo_get_url this) (headers this) ;;
  if Z.eqb (status_code response) 200 then
    try_except
      (body <- of_result (response_json response) ;;
       id <- of_result (subscript body "id") ;;
       set_self (set_new_repository_id id) ;;
       ret true)
      [([KeyError; ValueError],
        fun e =>
          logger_error ("Error parsing repository data: " ++ exn_msg e) ;;
          ret false)]
  else
    logger_error ("Failed to retrieve repository: " ++ status_line response) ;;
    ret false.

Definition repo_body (this : CreateAzureRepo) : value :=
  VDict [("name", VStr (new_repo_name this));
         ("project", VDict [("id", VStr (parent_project_id this))])].

(** [CreateAzureRepo.create_azure_devops_repo] *)
Definition create_azure_devops_repo (W : world) : M (state CreateAzureRepo) bool :=
  this <- get_self ;;
  logger_info ("Creating new Azure repository: " ++ new_repo_name this) ;;
  response <- requests_post W (repo_post_url this) (headers this)
                (Json (repo_body this)) ;;
  if Z.eqb (status_code response) 201 then
    logger_info "Repository created successfully" ;;
    body <- of_result (response_json response) ;;
    id <- of_result (subscript body "id") ;;
    set_self (set_new_repository_id id) ;;
    ret true
  else if Z.eqb (status_code response) 409 then
    logger_info "Repository already exists, retrieving ID" ;;
    _get_existing_repo_id W
  else
    logger_error ("Failed to create repository: " ++ status_line response) ;;
    ret false.

Definition set_url_argv (this : CreateAzureRepo) : list string :=
  ["git"; "remote"; "set-url"; "origin";
   "git@ssh.dev.azure.com:v3/" ++ organization this ++ "/"
   ++ source_project_name this ++ "/" ++ new_repo_name this].

Definition push_argv : list string := ["git"; "push"; "-u"; "origin"; "--all"].

(** [CreateAzureRepo.git_migrate] *)
Definition git_migrate (W : world) : M (state CreateAzureRepo) bool :=
  logger_info "Starting git migration" ;;
  try_except
    (this <- get_self ;;
     subprocess_run W (set_url_argv this) ;;
     subprocess_run W push_argv ;;
     logger_info "Git migration completed successfully" ;;
     ret true)
    [([SubprocessError],
      fun e =>
        logger_error ("Git migration failed: " ++ exn_msg e) ;;
        ret false)].

Definition policy_body (this : CreateAzureRepo) : value :=
  VDict [("isEnabled", VBool true);
         ("isBlocking", VBool true);
         ("isDeleted", VBool false);
         ("isEnterpriseManaged", VBool false);
         ("type", VDict [("id", VStr "0609b952-1397-4640-95ec-e00a01b2c241")]);
         ("settings",
          VDict [("buildDefinitionId", cicd_pull_request_id this);
                 ("manualQueueOnly", VBool false);
                 ("queueOnSourceUpdateOnly", VBool true);
                 ("scope",
                  VList [VDict [("repositoryId", new_repository_id this);
                                ("refName", VStr "refs/heads/master");
                                ("matchKind", VStr "exact")]]);
                 ("validDuration", VFloat 720 0)])].

(** [CreateAzureRepo.create_pull_request_policy] *)
Definition create_pull_request_policy (W : world) : M (state CreateAzureRepo) bool :=
  this <- get_self ;;
  if negb (truthy (cicd_pull_request_id this))
     || negb (truthy (new_repository_id this)) then
    logger_error "Missing required IDs for policy creation" ;;
    ret false
  else
    logger_info "Setting build validation policy for pull requests" ;;
    response <- requests_post W (policy_post_url this) (headers this)
                  (Json (policy_body this)) ;;
    if Z.eqb (status_code response) 200 then
      logger_info "Build validation policy created successfully" ;;
      ret true
    else
      logger_error ("Failed to create build validation policy: "
                    ++ status_line response) ;;
      ret false.

(** What [parse_arguments] returns: the two required options. *)
Record Namespace : Type := mkNamespace {
  azure_access_token : string;
  repository_name : string
}.

(** The workflow of [main], once the object exists. *)
Definition workflow (W : world) : M (state CreateAzureRepo) unit :=
  created <- create_azure_devops_repo W ;;
  if created then
    create_pipelines W ;;
    git_migrate W ;;
    create_pull_request_policy W ;;
    ret tt
  else
    logger_error "Failed to create or find repository. Aborting.".

(** [main], from the parsed arguments on; the state it ends in holds the
    object, when the constructor returned one. *)
Definition main (W : world) (args : Namespace) (t : list event)
    : result unit * option CreateAzureRepo * list event :=
  match __init__ (azure_access_token args) (repository_name args) with
  | Raise e => (Raise e, None, t)
  | Ok repo =>
      let (r, s) := workflow W (mkState repo t) in
      (r, Some (self s), events s)
  end.

End setup_repo.

(** ** pull_requests/architecture.py *)

Module architecture.

Definition diagram_path : string := "./cdk.out/cdkgraph/diagram.png".

(** [main]: the result of the upload is not looked at. *)
Definition main (W : world) : M (list event) unit :=
  logger_info ("Uploading architecture diagram from " ++ diagram_path) ;;
  try_except
    (let msg := pull_request_comment.__init__ W in
     pull_request_comment.upload_attachment_and_comment W msg diagram_path ;;
     logger_info "Successfully uploaded architecture diagram to PR comment")
    [([Exception],
      fun exc =>
        logger_exception ("Failed to upload architecture diagram: " ++ exn_msg exc) ;;
        raise exc)].

End architecture.

(** ** logging_config.py *)

(** The numeric levels of the [logging] module. *)
Module logging.

Definition NOTSET : Z := 0.
Definition DEBUG : Z := 10.
Definition INFO : Z := 20.
Definition WARNING : Z := 30.
Definition ERROR : Z := 40.
Definition CRITICAL : Z := 50.

End logging.

Module logging_config.

Inductive stream : Type := stdout | stderr.

(** The handlers a logger can carry: the console handler this module
    adds, and file handlers something else may have added before. *)
Inductive Handler : Type :=
| StreamHandler (out : stream) (log_format date_format : string) (lvl : Z)
| RotatingFileHandler (file : string) (max_bytes backup_count : Z).

(** A [logging.Logger], as [logging.getLogger(name)] hands it out. *)
Record Logger : Type := mkLogger {
  logger_name : string;
  logger_level : Z;
  logger_propagate : bool;
  handlers : list Handler
}.

(** [Logger.hasHandlers()]: a handler on the logger itself or, as long
    as records propagate, on an ancestor; [inherited] is the answer of
    the parent. *)
Definition hasHandlers (lg : Logger) (inherited : bool) : bool :=
  match handlers lg with
  | _ :: _ => true
  | [] => if logger_propagate lg then inherited else false
  end.

Definition default_log_format : string :=
  "[%(asctime)s] [%(levelname)s] [%(name)s] - %(message)s".

Definition default_date_format : string := "%Y-%m-%d %H:%M:%S".

(** [configure_logging], for a logger name that is given; [lg] is the
    logger [logging.getLogger(logger_name)] returns.  [log_file],
    [file_output], [max_bytes] and [backup_count] are accepted and not
    used. *)
Definition configure_logging (lg : Logger) (inherited : bool) (log_level : Z)
    (log_file : option string) (log_format date_format : string)
    (console_output file_output : bool) (max_bytes backup_count : Z)
    (propagate : bool) : Logger :=
  let cleared := if hasHandlers lg inherited then [] else handlers lg in
  let with_console :=
    if console_output
    then (cleared ++ [StreamHandler stdout log_format date_format log_level])%list
    else cleared in
  mkLogger (logger_name lg) log_level propagate with_console.

Definition log_level_map (name : string) : option Z :=
  if String.eqb name "DEBUG" then Some logging.DEBUG
  else if String.eqb name "INFO" then Some logging.INFO
  else if String.eqb name "WARNING" then Some logging.WARNING
  else if String.eqb name "ERROR" then Some logging.ERROR
  else if String.eqb name "CRITICAL" then Some logging.CRITICAL
  else None.

(** [log_level or log_level_map.get(env_log_level, logging.INFO)] *)
Definition effective_log_level (W : world) (log_level : option Z) : Z :=
  let env_log_level :=
    match getenv W "AZURE_PIPELINES_LOG_LEVEL" with
    | Some s => s
    | None => "INFO"
    end in
  let from_env :=
    match log_level_map env_log_level with
    | Some l => l
    | None => logging.INFO
    end in
  match log_level with
  | Some l => if Z.eqb l 0 then from_env else l
  | None => from_env
  end.

(** [get_logger], for a name that is given and no further keyword. *)
Definition get_logger (W : world) (lg : Logger) (inherited : bool)
    (log_level : option Z) : Logger :=
  configure_logging lg inherited (effective_log_level W log_level) None
    default_log_format default_date_format true false 10485760 5 false.

End logging_config.

(** ** app.py: the tags *)

Module app.

(** [CdkSampleRepo.create_tags]: the mapping it stores in [self.tags],
    in the order of the literal. *)
Definition create_tags (W : world) (environment : value) : list (string * value) :=
  let branch_name :=
    match getenv W "BUILD_SOURCEBRANCHNAME" with
    | Some s => s
    | None => "master"
    end in
  let branch_name := if String.eqb branch_name "merge" then "master" else branch_name in
  [("DeploymentMethod", VStr "CDK - Python");
   ("CICD", VStr "True");
   ("RepositoryName",
    VStr match getenv W "BUILD_REPOSITORY_NAME" with
         | Some s => s
         | None => "local"
         end);
   ("Environment", environment);
   ("BranchName", VStr branch_name);
   ("Name", VStr "Network Management Repo")].

(** [CdkSampleRepo.assign_tags]: the calls [Tags.of(stack).add(key, value)]
    it makes, in order. *)
Definition assign_tags {Stack : Type} (stacks : list Stack)
    (tags : list (string * value)) : list (Stack * string * value) :=
  flat_map (fun stack => map (fun kv => (stack, fst kv, snd kv)) tags) stacks.

End app.

(** ** The vocabulary of the statements *)

(** The HTTP calls of a trace, in the order they were made. *)
Fixpoint http_calls (t : list event) : list http_call :=
  match t with
  | [] => []
  | EHttp c :: rest => c :: http_calls rest
  | _ :: rest => http_calls rest
  end.

(** The request [Message.add_msg] sends for a comment. *)
Definition comment_call (self : pull_request_comment.Message) (comment : string)
    : http_call :=
  HttpCall POST (pull_request_comment.msg_url self)
    (pull_request_comment.msg_headers self)
    (Json (pull_request_comment.thread_data comment)).

(** The request [Message.upload_attachment_and_comment] sends for a file. *)
Definition upload_call (self : pull_request_comment.Message) (content : string)
    : http_call :=
  HttpCall POST (pull_request_comment.attachment_url self)
    (pull_request_comment.attachment_headers self) (Data content).

(** The line logged before the upload. *)
Definition upload_log (self : pull_request_comment.Message) : event :=
  ELog INFO ("Uploading attachment: " ++ pull_request_comment.file_name self ++ " to "
             ++ pull_request_comment.attachment_url self).

(** The comment a report file leads to: one for a table that was read
    and is not empty, none for an empty table or a file that failed. *)
Definition report_call (W : world) (msg : pull_request_comment.Message)
    (csv_file : path_entry) : list http_call :=
  match read_csv W (path_str csv_file) with
  | Ok df =>
      if comment.df_empty df then []
      else [comment_call msg (to_markdown W df)]
  | Raise _ => []
  end.

(** The comments a listing of report files leads to, file after file. *)
Fixpoint report_calls (W : world) (msg : pull_request_comment.Message)
    (files : list path_entry) : list http_call :=
  match files with
  | [] => []
  | f :: rest => (report_call W msg f ++ report_calls W msg rest)%list
  end.

(** The [except Exception] clause of the loop over the report files. *)
Definition report_handler (csv_file : path_entry)
    : list (list exn_class * (exn -> M (list event) unit)) :=
  [([Exception],
    fun e =>
      logger_exception ("Error processing CSV file " ++ path_str csv_file
                        ++ ": " ++ exn_msg e))].




Definition policy_post (this : setup_repo.CreateAzureRepo) : http_call :=
  HttpCall POST (setup_repo.policy_post_url this) (setup_repo.headers this)
    (Json (setup_repo.policy_body this)).



Definition abort_log : event :=
  ELog ERROR "Failed to create or find repository. Aborting.".

(** What a stage may add to the trace: log lines, and calls to its own
    URLs; for the migration, log lines and git commands. *)
Definition calls_only (urls : list string) (e : event) : Prop :=
  match e with
  | ELog _ _ => True
  | EHttp c => In (call_url c) urls
  | ERun _ => False
  end.

Definition git_only (e : event) : Prop :=
  match e with
  | ELog _ _ => True
  | EHttp _ => False
  | ERun argv => hd_error argv = Some "git"
  end.

(** No call to the outside at all. *)
Definition quiet (e : event) : Prop :=
  match e with
  | ELog _ _ => True
  | _ => False
  end.

(** The URLs each stage talks to. *)
Definition repo_urls (this : setup_repo.CreateAzureRepo) : list string :=
  [setup_repo.repo_post_url this; setup_repo.repo_get_url this].

Definition pipeline_urls (this : setup_repo.CreateAzureRepo) : list string :=
  [setup_repo.pipelines_post_url this; setup_repo.pipelines_get_url this].

Definition policy_urls (this : setup_repo.CreateAzureRepo) : list string :=
  [setup_repo.policy_post_url this].

(** The attributes that are set once, in the constructor. *)
Definition config_of (o : setup_repo.CreateAzureRepo)
    : string * string * string * string * string * list string
      * list (string * string) :=
  (setup_repo.new_repo_name o, setup_repo.azure_api_version o,
   setup_repo.parent_project_id o, setup_repo.source_project_name o,
   setup_repo.organization o, setup_repo.pipeline_stages o, setup_repo.headers o).

(** [emits this P m]: run from a session with the constructor's
    attributes of [this], [m] keeps these attributes and only appends to
    the trace, and every event it appends satisfies [P]. *)
Definition emits {A : Type} (this : setup_repo.CreateAzureRepo)
    (P : event -> Prop) (m : M (state setup_repo.CreateAzureRepo) A) : Prop :=
  forall s,
    config_of (self s) = config_of this ->
    config_of (self (snd (m s))) = config_of this
    /\ exists evs, events (snd (m s)) = (events s ++ evs)%list /\ Forall P evs.

(** The text [add_cdk_diff_comment] posts for the content of the output
    file: the content, or a fixed sentence when there is none. *)
Definition diff_text (output_content : option string) : string :=
  match output_content with
  | None => "CDK Diff found no resource is going to change"
  | Some EmptyString => "CDK Diff found no resource is going to change"
  | Some s => s
  end.

(** The comments [add_validation_reports] posts for a directory. *)
Definition directory_reports (W : world) (msg : pull_request_comment.Message)
    (templates_dir : string) : list http_call :=
  if path_exists W (Path templates_dir)
  then report_calls W msg (glob W (Path templates_dir) "*.csv")
  else [].

(** The requests and log lines of the pipeline stage. *)
Definition pipeline_post (this : setup_repo.CreateAzureRepo) (stage : string)
    : http_call :=
  HttpCall POST (setup_repo.pipelines_post_url this) (setup_repo.headers this)
    (Json (setup_repo.pipeline_body this stage)).

Definition pipelines_get (this : setup_repo.CreateAzureRepo) : http_call :=
  HttpCall GET (setup_repo.pipelines_get_url this) (setup_repo.headers this)
    NoPayload.

Definition pipeline_logs (response : Response) : list event :=
  [ELog INFO ("Pipeline creation status: " ++ setup_repo.status_line response);
   if Z.eqb (status_code response) 200
   then ELog INFO "Pipeline creation succeeded"
   else ELog ERROR "Pipeline creation failed or pipeline already exists"].

Definition searching_log (this : setup_repo.CreateAzureRepo) : event :=
  ELog ERROR ("Pipeline " ++ setup_repo.new_repo_name this
              ++ "-pull-request already exists. Searching for its ID...").

Definition found_log (this : setup_repo.CreateAzureRepo) : event :=
  ELog INFO ("Found ID for " ++ setup_repo.new_repo_name this ++ "-pull-request").

Definition creating_pipelines_log (this : setup_repo.CreateAzureRepo) : event :=
  ELog INFO ("Creating new Azure pipelines on repository: "
             ++ setup_repo.new_repo_name this).

(** A pipeline name the search takes for the pull-request pipeline of a
    repository: it holds the repository name and "pull-request". *)
Definition pr_pipeline_for (repo name : string) : bool :=
  is_substring repo name && is_substring "pull-request" name.

(** An entry of the listing the search goes past: an object whose name
    (the empty string when it has none) is a string that is not taken. *)
Definition passed_over (repo : string) (pipeline : value) : Prop :=
  exists kv name,
    pipeline = VDict kv
    /\ match dict_lookup kv "name" with
       | Some v => v
       | None => VStr EmptyString
       end = VStr name
    /\ pr_pipeline_for repo name = false.

(** What the method does once the response to the creation has given no
    id: it logs, lists the pipelines of the source project, and goes
    through the listing if the answer is 200. *)
Definition lookup_pipelines (W : world) (s : state setup_repo.CreateAzureRepo)
    : result unit * state setup_repo.CreateAzureRepo :=
  let this := self s in
  let t1 := (events s ++ [searching_log this])%list in
  let found := server W t1 (pipelines_get this) in
  let s1 := mkState this (t1 ++ [EHttp (pipelines_get this)])%list in
  if Z.eqb (status_code found) 200 then
    try_except
      (body <- of_result (response_json found) ;;
       listed <- of_result (py_get body "value" (VList [])) ;;
       pipelines <- of_result (py_iter listed) ;;
       setup_repo.search_pipelines pipelines)
      [([KeyError; ValueError],
        fun e => logger_error ("Error parsing pipeline data: " ++ exn_msg e))]
      s1
  else
    (Ok tt,
     mkState this
       (events s1 ++ [ELog ERROR ("Failed to retrieve pipelines: "
                                  ++ str_of_Z (status_code found))])%list).

(** The response to the creation of a pipeline gives its id. *)
Definition answers_with_id (response : Response) : bool :=
  match json_body response with
  | Some body =>
      match subscript body "id" with
      | Ok _ => true
      | Raise _ => false
      end
  | None => false
  end.

(** [o] is [this], but for the id of the pull-request pipeline. *)
Definition pipeline_id_only (this o : setup_repo.CreateAzureRepo) : Prop :=
  o = this \/ exists id, o = setup_repo.set_cicd_pull_request_id id this.

(** Reading base64 back: the value of a digit, and the bytes of a text
    of digits padded with [=] to a multiple of four. *)
Fixpoint index_of (c : ascii) (s : string) : option N :=
  match s with
  | EmptyString => None
  | String c' s' =>
      if Ascii.eqb c c' then Some 0%N
      else match index_of c s' with
           | Some i => Some (N.succ i)
           | None => None
           end
  end.

Definition digit_value (c : ascii) : option N := index_of c base64.alphabet.

Fixpoint b64decode (cs : list ascii) : option (list N) :=
  match cs with
  | [] => Some []
  | c1 :: c2 :: c3 :: c4 :: rest =>
      match digit_value c1, digit_value c2 with
      | Some v1, Some v2 =>
          let b1 := (v1 * 4 + v2 / 16)%N in
          if Ascii.eqb c3 "=" then
            match Ascii.eqb c4 "=", rest with
            | true, [] => Some [b1]
            | _, _ => None
            end
          else
            match digit_value c3 with
            | None => None
            | Some v3 =>
                let b2 := ((v2 mod 16) * 16 + v3 / 4)%N in
                if Ascii.eqb c4 "=" then
                  match rest with
                  | [] => Some [b1; b2]
                  | _ => None
                  end
                else
                  match digit_value c4, b64decode rest with
                  | Some v4, Some bs =>
                      Some (b1 :: b2 :: ((v3 mod 4) * 64 + v4)%N :: bs)
                  | _, _ => None
                  end
            end
      | _, _ => None
      end
  | _ => None
  end.

(** The characters of a string are all below 128. *)
Definition is_ascii (s : string) : bool :=
  forallb (fun c => N.ltb (N_of_ascii c) 128) (list_ascii_of_string s).

(** The git commands of a trace, in order. *)
Fixpoint git_runs (t : list event) : list (list string) :=
  match t with
  | [] => []
  | ERun argv :: rest => argv :: git_runs rest
  | _ :: rest => git_runs rest
  end.

(** ** Worlds for concrete runs *)

(** A world with environment variables, files, a server and a git command. *)
Definition bare_world (env : string -> option string)
    (fs : string -> fs_node)
    (srv : list event -> http_call -> Response)
    (git : list event -> list string -> option exn) : world :=
  mkWorld env fs (fun _ _ => [])
    (fun _ => inl "Expecting value: line 1 column 1 (char 0)")
    (fun _ => Raise (Exn FileNotFoundError "No such file or directory"))
    (fun _ => EmptyString) (fun _ => EmptyString) srv git.

(** Environment variables from a list of bindings. *)
Definition env_of (bindings : list (string * string)) (k : string) : option string :=
  match find (fun p => String.eqb (fst p) k) bindings with
  | Some p => Some (snd p)
  | None => None
  end.

(** A response with a status, a reason and a decoded body. *)
Definition answer (code : Z) (why : string) (body : option value) : Response :=
  mkResponse code why EmptyString body.

(** The pull request of the end-to-end scenario. *)
Definition fabrikam_env : string -> option string :=
  env_of [("SYSTEM_COLLECTIONURI", "https://dev.azure.com/");
          ("SYSTEM_TEAMPROJECT", "fabrikam");
          ("BUILD_REPOSITORY_ID", "abc");
          ("SYSTEM_PULLREQUEST_PULLREQUESTID", "22")].

Definition no_files : string -> fs_node := fun _ => Absent.

Definition fabrikam_world : world :=
  bare_world fabrikam_env no_files
    (fun _ _ => answer 200 "OK" (Some (VDict []))) (fun _ _ => None).

(** A build of commit 0123456789abcdef with a diagram on disk; the server
    stores attachments and turns every comment down. *)
Definition diagram_env : string -> option string :=
  env_of [("SYSTEM_COLLECTIONURI", "https://dev.azure.com/");
          ("SYSTEM_TEAMPROJECT", "fabrikam");
          ("BUILD_REPOSITORY_ID", "abc");
          ("SYSTEM_PULLREQUEST_PULLREQUESTID", "22");
          ("BUILD_SOURCEVERSION", "0123456789abcdef")].

Definition diagram_files (p : string) : fs_node :=
  if String.eqb p "diagram.png" then RegularFile "PNG" true else Absent.

Definition attachment_server (_ : list event) (c : http_call) : Response :=
  match call_payload c with
  | Data _ => answer 201 "Created" (Some (VDict [("url", VStr "https://attachment-url")]))
  | _ => answer 400 "Bad Request" None
  end.

Definition diagram_world : world :=
  bare_world diagram_env diagram_files attachment_server (fun _ _ => None).

(** The same build with a server that refuses the upload. *)
Definition refusing_world : world :=
  bare_world diagram_env diagram_files
    (fun _ _ => answer 400 "Bad Request" None) (fun _ _ => None).

(** The same build with a server that answers 201 to everything, without
    a body. *)
Definition bodyless_world : world :=
  bare_world diagram_env diagram_files
    (fun _ _ => answer 201 "Created" None) (fun _ _ => None).

(** A directory with a report, an empty table and a file that cannot be
    parsed between them. *)
Definition findings : DataFrame :=
  mkDataFrame ["rule"; "resource"] [[VStr "S3-1"; VStr "bucket"]].

Definition reports_world : world :=
  mkWorld fabrikam_env
    (fun p => if String.eqb p "synth/templates" then Directory else Absent)
    (fun _ _ => [mkPath "synth/templates/a.csv" "a.csv";
                 mkPath "synth/templates/broken.csv" "broken.csv";
                 mkPath "synth/templates/empty.csv" "empty.csv";
                 mkPath "synth/templates/b.csv" "b.csv"])
    (fun _ => inl "Expecting value: line 1 column 1 (char 0)")
    (fun p =>
       if String.eqb p "synth/templates/broken.csv"
       then Raise (Exn ValueError "Error tokenizing data")
       else if String.eqb p "synth/templates/empty.csv"
       then Ok (mkDataFrame [] [])
       else Ok findings)
    (fun _ => "| rule | resource |")
    (fun _ => EmptyString)
    (fun _ _ => answer 200 "OK" (Some (VDict [])))
    (fun _ _ => None).

(** A project with one good config file, one that is not JSON, one that
    cannot be read and one whose bytes are no text; [config/dev] is a
    regular file. *)
Definition config_files (p : string) : fs_node :=
  if String.eqb p "config/developer.json" then RegularFile "{ok}" true
  else if String.eqb p "config/invalid.json" then RegularFile "invalid json" true
  else if String.eqb p "config/locked.json" then RegularFile "{ok}" false
  else if String.eqb p "config/dev/eu.json" then BelowFile
  else if String.eqb p "config/binary.json"
  then BinaryFile (String (ascii_of_nat 255) EmptyString)
         "'utf-8' codec can't decode byte 0xff in position 0: invalid start byte" true
  else Absent.

Definition config_world : world :=
  mkWorld (fun _ => None) config_files (fun _ _ => [])
    (fun content =>
       if String.eqb content "{ok}"
       then inr (VDict [("AWSRegion", VStr "eu-central-1")])
       else inl "Expecting value: line 1 column 1 (char 0)")
    (fun _ => Raise (Exn FileNotFoundError "No such file or directory"))
    (fun _ => EmptyString) (fun _ => EmptyString)
    (fun _ _ => answer 200 "OK" None) (fun _ _ => None).

Definition fresh_config (environment : string) : state config.CDKConfig :=
  mkState (config.mkCDKConfig environment (VDict [])) [].

(** The session [main] starts from, for the arguments of the tests. *)
Definition demo_repo : setup_repo.CreateAzureRepo :=
  setup_repo.mkCreateAzureRepo "demo" "7.0" "<PROJECT_ID>" "<PROJECT_NAME>"
    "<ORGANIZATION>" ["development"; "pull-request"; "release"] VNone VNone
    [("Accept", "application/json"); ("Authorization", "Basic OnRva2Vu")].

(** Servers for the creation of the repository "demo". *)
Definition repo_123 : option value := Some (VDict [("id", VStr "123")]).




Definition lost_world : world :=
  bare_world (fun _ => None) no_files
    (fun _ c => match call_method c with
                | POST => answer 409 "Conflict" None
                | GET => answer 404 "Not Found" None
                end)
    (fun _ _ => None).


(** A git command that always fails, in front of a server that creates
    the repository and every pipeline. *)
Definition git_failure : exn :=
  Exn CalledProcessError "Command 'git remote set-url' returned non-zero exit status 128.".

Definition stalled_world : world :=
  bare_world (fun _ => None) no_files
    (fun _ c =>
       if String.eqb (call_url c) (setup_repo.repo_post_url demo_repo)
       then answer 201 "Created" repo_123
       else answer 200 "OK" (Some (VDict [("id", VInt 7)])))
    (fun _ _ => Some git_failure).

Definition demo_args : setup_repo.Namespace := setup_repo.mkNamespace "token" "demo".

(** The run of [main] for "demo" where git fails: the states between the
    stages. *)
Definition stalled_s0 : state setup_repo.CreateAzureRepo := mkState demo_repo [].

Definition stalled_s1 : state setup_repo.CreateAzureRepo :=
  snd (setup_repo.create_azure_devops_repo stalled_world stalled_s0).

Definition stalled_s2 : state setup_repo.CreateAzureRepo :=
  snd (setup_repo.create_pipelines stalled_world stalled_s1).

Definition stalled_s3 : state setup_repo.CreateAzureRepo :=
  snd (setup_repo.git_migrate stalled_world stalled_s2).

Definition stalled_s4 : state setup_repo.CreateAzureRepo :=
  snd (setup_repo.create_pull_request_policy stalled_world stalled_s3).

(** A pull-request build with a diff on disk and the report directory
    of [reports_world]; the server turns every comment down. *)
Definition build_files (p : string) : fs_node :=
  if String.eqb p "./output.log" then RegularFile "Stack demo: 1 change" true
  else if String.eqb p "./output.log/old" then BelowFile
  else if String.eqb p "synth/templates" then Directory
  else Absent.

Definition build_world : world :=
  mkWorld fabrikam_env build_files (glob reports_world) (json_loads reports_world)
    (read_csv reports_world) (to_markdown reports_world) (py_repr reports_world)
    (fun _ _ => answer 500 "Internal Server Error" None) (fun _ _ => None).



(** A project where the pipelines of "demo" exist already: creating
    them is refused, and the listing has the pull-request pipeline of
    another repository, "demo2", in front of the one of "demo". *)
Definition listing : value :=
  VDict [("count", VInt 3);
         ("value",
          VList [VDict [("id", VInt 11); ("name", VStr "demo-development")];
                 VDict [("id", VInt 12); ("name", VStr "demo2-pull-request")];
                 VDict [("id", VInt 13); ("name", VStr "demo-pull-request")]])].

Definition existing_world : world :=
  bare_world (fun _ => None) no_files
    (fun _ c => match call_method c with
                | POST => answer 409 "Conflict" (Some (VDict [("message", VStr "exists")]))
                | GET => answer 200 "OK" (Some listing)
                end)
    (fun _ _ => None).

(** The session for "demo" once the repository is known. *)
Definition demo_created : setup_repo.CreateAzureRepo :=
  setup_repo.set_new_repository_id (VStr "123") demo_repo.

Definition demo_ready : setup_repo.CreateAzureRepo :=
  setup_repo.set_cicd_pull_request_id (VInt 7) demo_created.

(** Git where the push is what fails, and where git is not installed. *)
Definition push_fails_world : world :=
  bare_world (fun _ => None) no_files (fun _ _ => answer 200 "OK" None)
    (fun _ argv =>
       if existsb (String.eqb "push") argv then Some git_failure else None).

Definition no_git_world : world :=
  bare_world (fun _ => None) no_files (fun _ _ => answer 200 "OK" None)
    (fun _ _ => Some (Exn FileNotFoundError
                        "[Errno 2] No such file or directory: 'git'")).

(** A build of the branch "merge", with the log level asked for in
    lower case. *)
Definition merge_world : world :=
  bare_world
    (env_of [("BUILD_SOURCEBRANCHNAME", "merge");
             ("BUILD_REPOSITORY_NAME", "demo");
             ("AZURE_PIPELINES_LOG_LEVEL", "debug")])
    no_files (fun _ _ => answer 200 "OK" None) (fun _ _ => None).

(** ** Facts about traces *)

Lemma http_calls_app (t u : list event) :
  http_calls (t ++ u) = (http_calls t ++ http_calls u)%list.
Proof.
  induction t as [|e t IH]; simpl; [reflexivity|].
  destruct e; simpl; rewrite IH; reflexivity.
Qed.

(** Runs the monad's plumbing and the primitives, and nothing else: the
    strings and the functions of the modules stay as they are written. *)
Ltac run_io :=
  cbv beta iota zeta delta
    [bind ret raise of_result emit request requests_post requests_get
     logger_debug logger_info logger_warning logger_error logger_exception
     subprocess_run try_except get_self set_self
     trace with_trace Traced_trace Traced_state];
  cbn [self events fst snd negb andb orb handle for_each].

(** Settles which [except] clause takes an exception whose class is known. *)
Ltac decide_catch :=
  repeat match goal with
         | |- context [caught_by ?e ?cs] =>
             let b := eval vm_compute in (caught_by e cs) in
             match b with
             | true => change (caught_by e cs) with true
             | false => change (caught_by e cs) with false
             end
         end.

(** Every exception of the model is an [Exception]. *)
Lemma caught_by_Exception (e : exn) : caught_by e [Exception] = true.
Proof. destruct e as [c m]; destruct c; reflexivity. Qed.

(** Slices of a string from its start. *)
Lemma prefix_substring (n : nat) (s : string) :
  String.prefix (substring 0 n s) s = true.
Proof.
  revert s; induction n as [|n IH]; intros s.
  - destruct s; reflexivity.
  - destruct s as [|c s]; [reflexivity|].
    cbn [substring String.prefix]. rewrite IH.
    destruct (ascii_dec c c); [reflexivity | congruence].
Qed.

Lemma length_substring (n : nat) (s : string) :
  String.length (substring 0 n s) = Nat.min n (String.length s).
Proof.
  revert s; induction n as [|n IH]; intros s.
  - destruct s; reflexivity.
  - destruct s as [|c s]; [reflexivity|].
    cbn [substring String.length Nat.min]. rewrite IH. reflexivity.
Qed.

(** The prefix kept by [Message.__init__] is the slice [[:5]], also for
    the empty string. *)
Lemma commit_sha_prefix_slice (W : world) :
  pull_request_comment.commit_sha_prefix (pull_request_comment.__init__ W)
  = substring 0 5
      match getenv W "BUILD_SOURCEVERSION" with Some s => s | None => EmptyString end.
Proof.
  unfold pull_request_comment.__init__.
  cbn [pull_request_comment.commit_sha_prefix].
  destruct (getenv W "BUILD_SOURCEVERSION") as [[|c s]|]; reflexivity.
Qed.

(** ** The pull-request comment client *)

Section AddMsg.
Import pull_request_comment.
Variable W : world.

(** What one call of [add_msg] does, whatever the server answers. *)
Lemma add_msg_run (self : Message) (comment : string) (t : list event) :
  let t1 := (t ++ [ELog INFO ("Sending PR comment to: " ++ msg_url self)])%list in
  let response := server W t1 (comment_call self comment) in
  add_msg W self comment t =
    (Ok (Z.eqb (status_code response) 200),
     (t1 ++ [EHttp (comment_call self comment);
             ELog INFO (response_line response)])%list).
Proof.
  unfold add_msg, comment_call; run_io.
  rewrite <- app_assoc. reflexivity.
Qed.

Lemma add_msg_calls (self : Message) (comment : string) (t : list event) :
  http_calls (snd (add_msg W self comment t))
  = (http_calls t ++ [comment_call self comment])%list.
Proof.
  rewrite add_msg_run; simpl.
  rewrite !http_calls_app; simpl. rewrite app_nil_r. reflexivity.
Qed.

End AddMsg.

(** C1.  In the environment of the scenario, [add_msg "hello"] adds to
    the trace exactly one HTTP call: a POST to the threads URL of pull
    request 22 of repository abc in project fabrikam, whose JSON body is
    the thread with the single comment "hello". *)
Theorem add_msg_hello_request (W : world) (t : list event) :
  getenv W "SYSTEM_COLLECTIONURI" = Some "https://dev.azure.com/" ->
  getenv W "SYSTEM_TEAMPROJECT" = Some "fabrikam" ->
  getenv W "BUILD_REPOSITORY_ID" = Some "abc" ->
  getenv W "SYSTEM_PULLREQUEST_PULLREQUESTID" = Some "22" ->
  exists hdrs,
    http_calls (snd (pull_request_comment.add_msg W
                       (pull_request_comment.__init__ W) "hello" t))
    = (http_calls t ++
       [HttpCall POST
          "https://dev.azure.com/fabrikam/_apis/git/repositories/abc/pullRequests/22/threads?api-version=7.1"
          hdrs
          (Json (VDict [("comments",
                         VList [VDict [("parentCommentId", VInt 1);
                                       ("content", VStr "hello");
                                       ("commentType", VInt 1)]]);
                        ("status", VInt 1)]))])%list.
Proof.
  intros Huri Hproj Hrepo Hpr.
  exists (pull_request_comment.msg_headers (pull_request_comment.__init__ W)).
  rewrite add_msg_calls. f_equal.
  unfold comment_call, pull_request_comment.msg_url, pull_request_comment.__init__.
  cbn [pull_request_comment.base_url].
  rewrite Huri, Hproj, Hrepo, Hpr. reflexivity.
Qed.

Lemma add_msg_hello_request_witness :
  exists hdrs,
    http_calls (snd (pull_request_comment.add_msg fabrikam_world
                       (pull_request_comment.__init__ fabrikam_world) "hello" []))
    = [HttpCall POST
         "https://dev.azure.com/fabrikam/_apis/git/repositories/abc/pullRequests/22/threads?api-version=7.1"
         hdrs
         (Json (VDict [("comments",
                        VList [VDict [("parentCommentId", VInt 1);
                                      ("content", VStr "hello");
                                      ("commentType", VInt 1)]]);
                       ("status", VInt 1)]))].
Proof.
  apply (add_msg_hello_request fabrikam_world []); reflexivity.
Defined.

(** C5.  [add_msg] returns, and returns [True] exactly when the status
    code of the response is 200; it sends the one POST and nothing more,
    whatever the status. *)
Theorem add_msg_true_iff_200 (W : world) (self : pull_request_comment.Message)
    (comment : string) (t : list event) :
  let response :=
    server W (t ++ [ELog INFO ("Sending PR comment to: "
                               ++ pull_request_comment.msg_url self)])%list
      (comment_call self comment) in
  exists b,
    fst (pull_request_comment.add_msg W self comment t) = Ok b
    /\ (b = true <-> status_code response = 200%Z)
    /\ http_calls (snd (pull_request_comment.add_msg W self comment t))
       = (http_calls t ++ [comment_call self comment])%list.
Proof.
  intros response.
  exists (Z.eqb (status_code response) 200).
  split; [|split].
  - rewrite add_msg_run. reflexivity.
  - apply Z.eqb_eq.
  - apply add_msg_calls.
Qed.

Section Upload.
Import pull_request_comment.
Variable W : world.

(** A regular file that may be read is a file, and opens. *)
Lemma readable_file (path content : string) :
  node W path = RegularFile content true
  \/ (exists complaint, node W path = BinaryFile content complaint true) ->
  is_file W path = true /\ open_read_bytes W path = Ok content.
Proof.
  unfold is_file, open_read_bytes, open_file.
  intros [H | [complaint H]]; rewrite H; split; reflexivity.
Qed.

Lemma upload_missing_run (self : Message) (p : string) (t : list event) :
  is_file W (Path p) = false ->
  upload_attachment_and_comment W self p t
  = (Ok false, (t ++ [ELog ERROR ("File does not exist: " ++ Path p)])%list).
Proof.
  intros Hf. unfold upload_attachment_and_comment. cbv zeta. rewrite Hf. reflexivity.
Qed.

(** The start of an upload: the log line, the POST and the line for its
    answer. *)
Lemma upload_sent_run (self : Message) (p content : string) (t : list event) :
  is_file W (Path p) = true ->
  open_read_bytes W (Path p) = Ok content ->
  let response := server W (t ++ [upload_log self])%list (upload_call self content) in
  let t2 := (t ++ [upload_log self; EHttp (upload_call self content);
                   ELog INFO (response_line response)])%list in
  upload_attachment_and_comment W self p t
  = (if Z.eqb (status_code response) 201 then
       logger_info "File uploaded successfully" ;;
       body <- of_result (response_json response) ;;
       attachment_ref <- of_result (py_get body "url" VNone) ;;
       add_msg W self (link_comment W attachment_ref) ;;
       add_msg W self (image_comment W attachment_ref) ;;
       ret true
     else
       logger_error ("Failed to upload file. Response: " ++ text response) ;;
       ret false) t2.
Proof.
  intros Hfile Hopen response t2. subst response t2.
  unfold upload_attachment_and_comment, upload_log, upload_call. cbv zeta.
  rewrite Hfile; cbn [negb]. run_io. rewrite Hopen; run_io.
  rewrite <- !app_assoc; cbn [app]. reflexivity.
Qed.

Lemma upload_refused_run (self : Message) (p content : string) (t : list event) :
  is_file W (Path p) = true ->
  open_read_bytes W (Path p) = Ok content ->
  let response := server W (t ++ [upload_log self])%list (upload_call self content) in
  status_code response <> 201%Z ->
  upload_attachment_and_comment W self p t
  = (Ok false,
     (t ++ [upload_log self; EHttp (upload_call self content);
            ELog INFO (response_line response);
            ELog ERROR ("Failed to upload file. Response: " ++ text response)])%list).
Proof.
  intros Hfile Hopen response Hst.
  rewrite (upload_sent_run self p content t Hfile Hopen). fold response.
  destruct (Z.eqb_spec (status_code response) 201) as [E|_]; [contradiction|].
  run_io. rewrite <- !app_assoc. reflexivity.
Qed.

Lemma upload_stored_run (self : Message) (p content : string) (t : list event)
    (kv : list (string * value)) :
  is_file W (Path p) = true ->
  open_read_bytes W (Path p) = Ok content ->
  let response := server W (t ++ [upload_log self])%list (upload_call self content) in
  status_code response = 201%Z ->
  json_body response = Some (VDict kv) ->
  let attachment_ref :=
    match dict_lookup kv "url" with Some v => v | None => VNone end in
  let t3 := (t ++ [upload_log self; EHttp (upload_call self content);
                   ELog INFO (response_line response);
                   ELog INFO "File uploaded successfully"])%list in
  upload_attachment_and_comment W self p t
  = (Ok true,
     snd (add_msg W self (image_comment W attachment_ref)
            (snd (add_msg W self (link_comment W attachment_ref) t3)))).
Proof.
  intros Hfile Hopen response Hst Hjson attachment_ref t3.
  rewrite (upload_sent_run self p content t Hfile Hopen). fold response.
  rewrite Hst, Z.eqb_refl; run_io.
  unfold response_json. rewrite Hjson; run_io.
  assert (Href : py_get (VDict kv) "url" VNone = Ok attachment_ref)
    by (unfold py_get, attachment_ref; destruct (dict_lookup kv "url"); reflexivity).
  rewrite Href; run_io.
  rewrite <- !app_assoc; cbn [app]. fold t3.
  rewrite (add_msg_run W self (link_comment W attachment_ref)); cbn [fst snd].
  rewrite (add_msg_run W self (image_comment W attachment_ref)); cbn [fst snd].
  reflexivity.
Qed.

(** An answer 201 whose body is not a JSON object: [response.json()]
    raises, or the value it gives has no [get]. *)
Lemma upload_unparsed_run (self : Message) (p content : string) (t : list event) :
  is_file W (Path p) = true ->
  open_read_bytes W (Path p) = Ok content ->
  let response := server W (t ++ [upload_log self])%list (upload_call self content) in
  status_code response = 201%Z ->
  (forall kv, json_body response <> Some (VDict kv)) ->
  exists e,
    upload_attachment_and_comment W self p t
    = (Raise e,
       (t ++ [upload_log self; EHttp (upload_call self content);
              ELog INFO (response_line response);
              ELog INFO "File uploaded successfully"])%list)
    /\ exn_cls e = match json_body response with
                   | None => JSONDecodeError
                   | Some _ => AttributeError
                   end.
Proof.
  intros Hfile Hopen response Hst Hbody.
  rewrite (upload_sent_run self p content t Hfile Hopen). fold response.
  rewrite Hst, Z.eqb_refl; run_io. unfold response_json.
  destruct (json_body response) as [body|]; run_io.
  - destruct body as [| | | | | |kv]; cbn [py_get]; run_io;
      try (rewrite <- !app_assoc; cbn [app]; eexists; split; reflexivity).
    exfalso. apply (Hbody kv). reflexivity.
  - rewrite <- !app_assoc; cbn [app]. eexists; split; reflexivity.
Qed.

(** With the file on disk the upload is sent, whatever comes after. *)
Lemma upload_call_made (self : Message) (p content : string) (t : list event) :
  is_file W (Path p) = true ->
  open_read_bytes W (Path p) = Ok content ->
  exists after,
    snd (upload_attachment_and_comment W self p t)
    = (t ++ upload_log self :: EHttp (upload_call self content) :: after)%list.
Proof.
  intros Hfile Hopen.
  set (response := server W (t ++ [upload_log self])%list (upload_call self content)).
  destruct (Z.eq_dec (status_code response) 201) as [Hst|Hst].
  - destruct (json_body response) as [body|] eqn:Hjson.
    + destruct body as [| | | | | |kv];
        try (destruct (upload_unparsed_run self p content t Hfile Hopen Hst)
               as [e [Hrun _]];
             [ fold response; rewrite Hjson; discriminate
             | rewrite Hrun; cbn [snd]; eexists; reflexivity ]).
      rewrite (upload_stored_run self p content t kv Hfile Hopen Hst Hjson).
      cbn [snd]. rewrite !add_msg_run; cbn [snd].
      rewrite <- !app_assoc; cbn [app]. eexists; reflexivity.
    + destruct (upload_unparsed_run self p content t Hfile Hopen Hst)
        as [e [Hrun _]].
      * fold response; rewrite Hjson; discriminate.
      * rewrite Hrun; cbn [snd]. eexists; reflexivity.
  - rewrite (upload_refused_run self p content t Hfile Hopen Hst).
    cbn [snd]. eexists; reflexivity.
Qed.

End Upload.

(** C6, as the code has it.  [upload_attachment_and_comment], for every
    path.  When there is no file at the path (nothing, or a directory)
    it returns [False] and makes no HTTP call.  When the file is there and may be read, its bytes are
    uploaded; an answer with a status other than 201 gives [False], and
    the upload is the only call.  An answer 201 whose body is a JSON
    object gives [True] after exactly two comment posts, whatever the
    server answers to them: the link [[Architecture Diagram](url)] and
    the image [<img src="url" alt="Architecture Diagram">], where url is
    the text of the "url" entry of the object.  An answer 201 whose body
    is not a JSON object does not give [True]: the method raises once
    the file is uploaded, and no comment is posted. *)
Theorem upload_attachment_outcomes (W : world)
    (self : pull_request_comment.Message) (p : string) (t : list event) :
  let out := pull_request_comment.upload_attachment_and_comment W self p t in
  (node W (Path p) = Absent \/ node W (Path p) = BelowFile
   \/ node W (Path p) = BadName \/ node W (Path p) = Directory ->
     fst out = Ok false /\ http_calls (snd out) = http_calls t)
  /\ (forall content,
        node W (Path p) = RegularFile content true
        \/ (exists complaint,
              node W (Path p) = BinaryFile content complaint true) ->
        let response :=
          server W (t ++ [upload_log self])%list (upload_call self content) in
        (status_code response <> 201%Z ->
           fst out = Ok false
           /\ http_calls (snd out)
              = (http_calls t ++ [upload_call self content])%list)
        /\ (status_code response = 201%Z ->
            (forall kv, json_body response = Some (VDict kv) ->
               let url :=
                 py_str W match dict_lookup kv "url" with
                          | Some v => v
                          | None => VNone
                          end in
               fst out = Ok true
               /\ http_calls (snd out)
                  = (http_calls t ++
                     [upload_call self content;
                      comment_call self ("[Architecture Diagram](" ++ url ++ ")");
                      comment_call self
                        ("<img src=" ++ dquote ++ url ++ dquote ++ " alt="
                         ++ dquote ++ "Architecture Diagram" ++ dquote ++ ">")])%list)
            /\ ((forall kv, json_body response <> Some (VDict kv)) ->
                (exists e,
                   fst out = Raise e
                   /\ exn_cls e = match json_body response with
                                  | None => JSONDecodeError
                                  | Some _ => AttributeError
                                  end)
                /\ http_calls (snd out)
                   = (http_calls t ++ [upload_call self content])%list))).
Proof.
  intros out; subst out. split; [|intros content Hnode response].
  - intros Hnode.
    assert (Hf : is_file W (Path p) = false)
      by (unfold is_file; destruct Hnode as [H|[H|[H|H]]]; rewrite H; reflexivity).
    rewrite (upload_missing_run W self p t Hf); cbn [fst snd].
    split; [reflexivity|].
    rewrite http_calls_app; cbn [http_calls]. apply app_nil_r.
  - destruct (readable_file W (Path p) content Hnode) as [Hfile Hopen].
    split; [|intros Hst; split].
    + intros Hst.
      rewrite (upload_refused_run W self p content t Hfile Hopen Hst); cbn [fst snd].
      split; [reflexivity|].
      rewrite http_calls_app; reflexivity.
    + intros kv Hjson url.
      rewrite (upload_stored_run W self p content t kv Hfile Hopen Hst Hjson);
        cbn [fst snd].
      split; [reflexivity|].
      rewrite !add_msg_calls, http_calls_app; cbn [http_calls].
      rewrite <- !app_assoc. reflexivity.
    + intros Hbody.
      destruct (upload_unparsed_run W self p content t Hfile Hopen Hst Hbody)
        as [e [Hrun Hcls]].
      rewrite Hrun; cbn [fst snd]. split.
      * exists e. split; [reflexivity | exact Hcls].
      * rewrite http_calls_app; cbn [http_calls upload_log]. reflexivity.
Qed.

(** C6 does not hold as stated: here the upload is answered 201, with a
    body that is not JSON.  The method does not return [True]: it raises
    when it reads the body, and no comment is posted. *)
Lemma created_upload_without_comments :
  status_code (server bodyless_world
                 [upload_log (pull_request_comment.__init__ bodyless_world)]
                 (upload_call (pull_request_comment.__init__ bodyless_world) "PNG"))
  = 201%Z
  /\ fst (pull_request_comment.upload_attachment_and_comment bodyless_world
            (pull_request_comment.__init__ bodyless_world) "diagram.png" [])
     = Raise (Exn JSONDecodeError "Expecting value: line 1 column 1 (char 0)")
  /\ http_calls (snd (pull_request_comment.upload_attachment_and_comment bodyless_world
                        (pull_request_comment.__init__ bodyless_world)
                        "diagram.png" []))
     = [upload_call (pull_request_comment.__init__ bodyless_world) "PNG"].
Proof.
  repeat split; vm_compute; reflexivity.
Qed.

Lemma upload_attachment_outcomes_witness :
  (fst (pull_request_comment.upload_attachment_and_comment diagram_world
          (pull_request_comment.__init__ diagram_world) "missing.png" []) = Ok false
   /\ http_calls (snd (pull_request_comment.upload_attachment_and_comment diagram_world
                         (pull_request_comment.__init__ diagram_world) "missing.png" []))
      = [])
  /\ (fst (pull_request_comment.upload_attachment_and_comment refusing_world
             (pull_request_comment.__init__ refusing_world) "./diagram.png" []) = Ok false
      /\ length (http_calls
                   (snd (pull_request_comment.upload_attachment_and_comment refusing_world
                           (pull_request_comment.__init__ refusing_world)
                           "./diagram.png" []))) = 1)
  /\ (fst (pull_request_comment.upload_attachment_and_comment diagram_world
             (pull_request_comment.__init__ diagram_world) "diagram.png" []) = Ok true
      /\ http_calls
           (snd (pull_request_comment.upload_attachment_and_comment diagram_world
                   (pull_request_comment.__init__ diagram_world) "diagram.png" []))
         = [upload_call (pull_request_comment.__init__ diagram_world) "PNG";
            comment_call (pull_request_comment.__init__ diagram_world)
              "[Architecture Diagram](https://attachment-url)";
            comment_call (pull_request_comment.__init__ diagram_world)
              ("<img src=" ++ dquote ++ "https://attachment-url" ++ dquote ++ " alt="
               ++ dquote ++ "Architecture Diagram" ++ dquote ++ ">")]).
Proof.
  split; [|split].
  - apply (proj1 (upload_attachment_outcomes diagram_world
                    (pull_request_comment.__init__ diagram_world) "missing.png" [])).
    left; reflexivity.
  - destruct (proj1 (proj2 (upload_attachment_outcomes refusing_world
                              (pull_request_comment.__init__ refusing_world)
                              "./diagram.png" []) "PNG" (or_introl eq_refl)))
      as [Hr Hc].
    + vm_compute. discriminate.
    + split; [exact Hr | rewrite Hc; reflexivity].
  - exact (proj1 (proj2 (proj2 (upload_attachment_outcomes diagram_world
                                  (pull_request_comment.__init__ diagram_world)
                                  "diagram.png" []) "PNG" (or_introl eq_refl))
                    eq_refl)
             [("url", VStr "https://attachment-url")] eq_refl).
Defined.

(** C9.  The attachment is named "diagram-", then the first five
    characters of BUILD_SOURCEVERSION (all of them when there are fewer),
    then ".png"; with the variable unset or empty the name is
    "diagram-.png".  The name is the last segment of the URL the file is
    uploaded to. *)
Theorem attachment_name_from_source_version (W : world) :
  let source_version :=
    match getenv W "BUILD_SOURCEVERSION" with Some s => s | None => EmptyString end in
  let self := pull_request_comment.__init__ W in
  pull_request_comment.file_name self
  = "diagram-" ++ substring 0 5 source_version ++ ".png"
  /\ String.prefix (substring 0 5 source_version) source_version = true
  /\ String.length (substring 0 5 source_version)
     = Nat.min 5 (String.length source_version)
  /\ (source_version = EmptyString ->
      pull_request_comment.file_name self = "diagram-.png")
  /\ (forall p content t,
        node W (Path p) = RegularFile content true ->
        exists before after,
          snd (pull_request_comment.upload_attachment_and_comment W self p t)
          = (before ++
             EHttp (HttpCall POST
                      (pull_request_comment.base_url self ++ "/attachments/"
                       ++ ("diagram-" ++ substring 0 5 source_version ++ ".png")
                       ++ "?api-version=7.1")
                      (pull_request_comment.attachment_headers self)
                      (Data content))
             :: after)%list
          /\ http_calls before = http_calls t).
Proof.
  intros source_version self.
  assert (Hname : pull_request_comment.file_name self
                  = "diagram-" ++ substring 0 5 source_version ++ ".png").
  { unfold pull_request_comment.file_name, self.
    rewrite commit_sha_prefix_slice. reflexivity. }
  split; [exact Hname|].
  split; [apply prefix_substring|].
  split; [apply length_substring|].
  split.
  - intros Hempty. rewrite Hname, Hempty. reflexivity.
  - intros p content t Hnode.
    destruct (readable_file W (Path p) content (or_introl Hnode)) as [Hfile Hopen].
    destruct (upload_call_made W self p content t Hfile Hopen) as [after Hrun].
    exists (t ++ [upload_log self])%list, after. split.
    + rewrite Hrun, <- app_assoc. cbn [app].
      unfold upload_call, pull_request_comment.attachment_url.
      rewrite Hname. reflexivity.
    + rewrite http_calls_app. cbn [http_calls upload_log]. apply app_nil_r.
Qed.

Lemma attachment_name_from_source_version_witness :
  pull_request_comment.file_name (pull_request_comment.__init__ diagram_world)
  = "diagram-01234.png"
  /\ pull_request_comment.file_name (pull_request_comment.__init__ fabrikam_world)
     = "diagram-.png".
Proof.
  split.
  - exact (proj1 (attachment_name_from_source_version diagram_world)).
  - exact (proj1 (proj2 (proj2 (proj2
             (attachment_name_from_source_version fabrikam_world)))) eq_refl).
Defined.

(** ** The validation reports *)

Section Reports.
Import pull_request_comment comment.
Variable W : world.
Variable msg : Message.

(** One turn of the loop: it never raises, and posts what [report_call] says. *)
Lemma report_one_guarded (csv_file : path_entry) (t : list event) :
  exists t',
    try_except (report_one W msg csv_file) (report_handler csv_file) t = (Ok tt, t')
    /\ http_calls t' = (http_calls t ++ report_call W msg csv_file)%list.
Proof.
  unfold report_one, report_call, report_handler.
  destruct (read_csv W (path_str csv_file)) as [df|e]; run_io.
  - destruct (df_empty df); run_io.
    + eexists; split; [reflexivity|]. symmetry; apply app_nil_r.
    + rewrite add_msg_run; cbn [fst snd].
      match goal with
      | |- context [negb (Z.eqb ?c 200)] => destruct (Z.eqb c 200)
      end; run_io;
        (eexists; split; [reflexivity|]);
        rewrite !http_calls_app; cbn [http_calls];
        rewrite ?app_nil_r; reflexivity.
  - rewrite caught_by_Exception; run_io.
    eexists; split; [reflexivity|].
    rewrite http_calls_app; cbn [http_calls]. rewrite !app_nil_r. reflexivity.
Qed.

Lemma report_loop (files : list path_entry) (t : list event) :
  exists t',
    for_each files
      (fun csv_file => try_except (report_one W msg csv_file) (report_handler csv_file)) t
    = (Ok tt, t')
    /\ http_calls t' = (http_calls t ++ report_calls W msg files)%list.
Proof.
  revert t; induction files as [|f rest IH]; intros t.
  - exists t; split; [reflexivity|]. symmetry; apply app_nil_r.
  - destruct (report_one_guarded f t) as [t1 [Hrun Hcalls]].
    destruct (IH t1) as [t2 [Hrest Hcalls2]].
    exists t2; split.
    + cbn [for_each]. unfold bind at 1. rewrite Hrun. exact Hrest.
    + rewrite Hcalls2, Hcalls. cbn [report_calls]. apply eq_sym, app_assoc.
Qed.

End Reports.

(** C8.  [add_validation_reports] returns normally, and the comments it
    posts are, file after file in the order of the listing, one comment
    for every file whose table was read and is not empty, and none for a
    file whose table is empty or whose processing raised: a failing file
    is skipped and the files after it are still handled.  With the
    directory missing nothing is posted. *)
Theorem add_validation_reports_comments (W : world)
    (msg : pull_request_comment.Message) (templates_dir : string) (t : list event) :
  let out := comment.add_validation_reports W msg templates_dir t in
  fst out = Ok tt
  /\ (path_exists W (Path templates_dir) = false ->
      http_calls (snd out) = http_calls t)
  /\ (path_exists W (Path templates_dir) = true ->
      http_calls (snd out)
      = (http_calls t
         ++ report_calls W msg (glob W (Path templates_dir) "*.csv"))%list).
Proof.
  intros out; subst out. unfold comment.add_validation_reports. cbv zeta.
  destruct (path_exists W (Path templates_dir)) eqn:Hdir; cbn [negb].
  - destruct (report_loop W msg (glob W (Path templates_dir) "*.csv") t)
      as [t' [Hrun Hcalls]].
    unfold report_handler in Hrun. rewrite Hrun; cbn [fst snd].
    split; [reflexivity|]. split; [discriminate|]. intros _. exact Hcalls.
  - run_io. split; [reflexivity|]. split; [|discriminate]. intros _.
    rewrite http_calls_app; cbn [http_calls]. apply app_nil_r.
Qed.

Lemma add_validation_reports_comments_witness :
  http_calls (snd (comment.add_validation_reports reports_world
                     (pull_request_comment.__init__ reports_world)
                     "synth/templates" []))
  = [comment_call (pull_request_comment.__init__ reports_world) "| rule | resource |";
     comment_call (pull_request_comment.__init__ reports_world) "| rule | resource |"]
  /\ http_calls (snd (comment.add_validation_reports reports_world
                        (pull_request_comment.__init__ reports_world)
                        "nowhere" []))
     = [].
Proof.
  split.
  - exact (proj2 (proj2 (add_validation_reports_comments reports_world
             (pull_request_comment.__init__ reports_world) "synth/templates" []))
             eq_refl).
  - exact (proj1 (proj2 (add_validation_reports_comments reports_world
             (pull_request_comment.__init__ reports_world) "nowhere" [])) eq_refl).
Defined.

(** ** The config loader *)

Section LoadConfig.
Import config.
Variable W : world.



Lemma load_config_loads (s : state CDKConfig) (content : string) (v : value) :
  open_read W (config_path (_environment (self s))) = Ok content ->
  json_loads W content = inr v ->
  load_config W s
  = (Ok v, mkState (mkCDKConfig (_environment (self s)) v) (events s)).
Proof.
  intros Hopen Hjson. unfold load_config; run_io. rewrite Hopen; run_io.
  unfold json_load. rewrite Hjson; run_io. reflexivity.
Qed.


Lemma node_nul (p : string) : has_nul p = true -> node W p = BadName.
Proof. intros H. unfold node. rewrite H. reflexivity. Qed.





(** A key that is not in the mapping gives the default, without raising. *)
Lemma get_value_missing (s : state CDKConfig) (key : string) (default : value)
    (kv : list (string * value)) :
  data (self s) = VDict kv ->
  dict_lookup kv key = None ->
  fst (get_value W key default s) = Ok default.
Proof.
  intros Hdata Hkey. unfold get_value; run_io.
  rewrite Hdata; cbn [subscript]. rewrite Hkey; run_io.
  decide_catch; run_io. rewrite Hdata; cbn [py_iter]; run_io. reflexivity.
Qed.

End LoadConfig.




(** ** The repository provisioner *)

(** [demo_repo] is the object the constructor builds for these arguments. *)
Lemma demo_repo_init : setup_repo.__init__ "token" "demo" = Ok demo_repo.
Proof. reflexivity. Qed.

(** C4.  With no repository id, [create_pipelines] logs an error, makes
    no HTTP call and leaves the session as it was; with the pipeline id
    or the repository id missing, [create_pull_request_policy] logs an
    error, returns [False], makes no HTTP call and leaves the session as
    it was. *)
Theorem guards_without_ids (W : world) (s : state setup_repo.CreateAzureRepo) :
  (setup_repo.new_repository_id (self s) = VNone ->
     let out := setup_repo.create_pipelines W s in
     fst out = Ok tt
     /\ self (snd out) = self s
     /\ events (snd out)
        = (events s ++ [ELog ERROR "Repository ID not set. Create repository first."])%list
     /\ http_calls (events (snd out)) = http_calls (events s))
  /\ (setup_repo.cicd_pull_request_id (self s) = VNone
      \/ setup_repo.new_repository_id (self s) = VNone ->
     let out := setup_repo.create_pull_request_policy W s in
     fst out = Ok false
     /\ self (snd out) = self s
     /\ events (snd out)
        = (events s ++ [ELog ERROR "Missing required IDs for policy creation"])%list
     /\ http_calls (events (snd out)) = http_calls (events s)).
Proof.
  split.
  - intros Hid out; subst out.
    unfold setup_repo.create_pipelines; run_io. rewrite Hid; cbn [truthy negb]; run_io.
    repeat split. rewrite http_calls_app; cbn [http_calls]. apply app_nil_r.
  - intros Hid out; subst out.
    unfold setup_repo.create_pull_request_policy; run_io.
    assert (Hguard : negb (truthy (setup_repo.cicd_pull_request_id (self s)))
                     || negb (truthy (setup_repo.new_repository_id (self s))) = true).
    { destruct Hid as [Hid|Hid]; rewrite Hid; cbn [truthy negb orb].
      - reflexivity.
      - apply orb_true_r. }
    rewrite Hguard; run_io.
    repeat split. rewrite http_calls_app; cbn [http_calls]. apply app_nil_r.
Qed.

Lemma guards_without_ids_witness :
  (fst (setup_repo.create_pipelines fabrikam_world (mkState demo_repo [])) = Ok tt
   /\ http_calls (events (snd (setup_repo.create_pipelines fabrikam_world
                                 (mkState demo_repo [])))) = [])
  /\ (fst (setup_repo.create_pull_request_policy fabrikam_world
             (mkState (setup_repo.set_new_repository_id (VStr "456") demo_repo) []))
      = Ok false
      /\ http_calls (events (snd (setup_repo.create_pull_request_policy fabrikam_world
                                    (mkState (setup_repo.set_new_repository_id
                                                (VStr "456") demo_repo) []))))
         = []).
Proof.
  split.
  - destruct (proj1 (guards_without_ids fabrikam_world (mkState demo_repo [])) eq_refl)
      as [Hr [_ [_ Hc]]].
    split; [exact Hr | exact Hc].
  - destruct (proj2 (guards_without_ids fabrikam_world
                       (mkState (setup_repo.set_new_repository_id (VStr "456") demo_repo) []))
                (or_introl eq_refl))
      as [Hr [_ [_ Hc]]].
    split; [exact Hr | exact Hc].
Defined.

Section CreateRepo.
Import setup_repo.
Variable W : world.









End CreateRepo.






(** ** The stages of the workflow *)

Section Emits.
Import setup_repo.
Variable W : world.
Variable this : CreateAzureRepo.
Variable P : event -> Prop.

Lemma emits_ret {A} (a : A) : emits this P (ret a).
Proof.
  intros s Hs; cbn [ret snd]. split; [exact Hs|].
  exists []; split; [symmetry; apply app_nil_r | constructor].
Qed.

Lemma emits_raise {A} (e : exn) : emits this P (@raise _ A e).
Proof.
  intros s Hs; cbn [raise snd]. split; [exact Hs|].
  exists []; split; [symmetry; apply app_nil_r | constructor].
Qed.

Lemma emits_of_result {A} (r : result A) : emits this P (of_result r).
Proof.
  intros s Hs; cbn [of_result snd]. split; [exact Hs|].
  exists []; split; [symmetry; apply app_nil_r | constructor].
Qed.

Lemma emits_bind {A B} (m : M (state CreateAzureRepo) A)
    (k : A -> M (state CreateAzureRepo) B) :
  emits this P m -> (forall a, emits this P (k a)) -> emits this P (bind m k).
Proof.
  intros Hm Hk s Hs. unfold bind.
  destruct (Hm s Hs) as [Hc [evs [Hev Hall]]].
  destruct (m s) as [[a|e] s1]; cbn [snd] in *.
  - destruct (Hk a s1 Hc) as [Hc2 [evs2 [Hev2 Hall2]]].
    split; [exact Hc2|].
    exists (evs ++ evs2)%list. split.
    + rewrite Hev2, Hev. symmetry; apply app_assoc.
    + apply Forall_app; split; assumption.
  - split; [exact Hc|]. exists evs; split; assumption.
Qed.

(** Reading an attribute gives an object with the same constructor's
    attributes. *)
Lemma emits_get_self {B} (k : CreateAzureRepo -> M (state CreateAzureRepo) B) :
  (forall o, config_of o = config_of this -> emits this P (k o)) ->
  emits this P (bind get_self k).
Proof.
  intros Hk s Hs. unfold bind, get_self. exact (Hk (self s) Hs s Hs).
Qed.

Lemma emits_set_self (f : CreateAzureRepo -> CreateAzureRepo) :
  (forall o, config_of (f o) = config_of o) -> emits this P (set_self f).
Proof.
  intros Hf s Hs; cbn [set_self snd self events]. split.
  - rewrite Hf. exact Hs.
  - exists []; split; [symmetry; apply app_nil_r | constructor].
Qed.

Lemma emits_emit (e : event) : P e -> emits this P (emit e).
Proof.
  intros He s Hs. unfold emit; cbn [snd trace with_trace Traced_state self events].
  split; [exact Hs|].
  exists [e]; split; [reflexivity | constructor; [exact He | constructor]].
Qed.

Lemma emits_request (c : http_call) : P (EHttp c) -> emits this P (request W c).
Proof.
  intros He s Hs. unfold request; cbn [snd trace with_trace Traced_state self events].
  split; [exact Hs|].
  exists [EHttp c]; split; [reflexivity | constructor; [exact He | constructor]].
Qed.

Lemma emits_subprocess_run (argv : list string) :
  P (ERun argv) -> emits this P (subprocess_run W argv).
Proof.
  intros He s Hs. unfold subprocess_run.
  cbn [trace with_trace Traced_state self events].
  destruct (subprocess_exit W (events s) argv); cbn [snd self events];
    (split; [exact Hs|]);
    exists [ERun argv]; (split; [reflexivity | constructor; [exact He | constructor]]).
Qed.

Lemma emits_handle {A}
    (clauses : list (list exn_class * (exn -> M (state CreateAzureRepo) A)))
    (e : exn) :
  Forall (fun clause => emits this P (snd clause e)) clauses ->
  emits this P (handle clauses e).
Proof.
  induction 1 as [|[classes handler] rest Hh _ IH]; cbn [handle].
  - apply emits_raise.
  - destruct (caught_by e classes); [exact Hh | exact IH].
Qed.

Lemma emits_try_except {A} (body : M (state CreateAzureRepo) A)
    (clauses : list (list exn_class * (exn -> M (state CreateAzureRepo) A))) :
  emits this P body ->
  (forall e, Forall (fun clause => emits this P (snd clause e)) clauses) ->
  emits this P (try_except body clauses).
Proof.
  intros Hb Hh s Hs. unfold try_except.
  destruct (Hb s Hs) as [Hc [evs [Hev Hall]]].
  destruct (body s) as [[a|e] s1]; cbn [snd] in *.
  - split; [exact Hc|]. exists evs; split; assumption.
  - destruct (emits_handle clauses e (Hh e) s1 Hc) as [Hc2 [evs2 [Hev2 Hall2]]].
    split; [exact Hc2|].
    exists (evs ++ evs2)%list. split.
    + rewrite Hev2, Hev. symmetry; apply app_assoc.
    + apply Forall_app; split; assumption.
Qed.

Lemma emits_for_each {X} (xs : list X) (body : X -> M (state CreateAzureRepo) unit) :
  (forall x, emits this P (body x)) -> emits this P (for_each xs body).
Proof.
  intros Hb. induction xs as [|x rest IH]; cbn [for_each].
  - apply emits_ret.
  - apply emits_bind; [apply Hb | intros _; exact IH].
Qed.

End Emits.

(** The URLs are made of the constructor's attributes. *)
Lemma config_of_urls (o this : setup_repo.CreateAzureRepo) :
  config_of o = config_of this ->
  setup_repo.repo_post_url o = setup_repo.repo_post_url this
  /\ setup_repo.repo_get_url o = setup_repo.repo_get_url this
  /\ setup_repo.pipelines_post_url o = setup_repo.pipelines_post_url this
  /\ setup_repo.pipelines_get_url o = setup_repo.pipelines_get_url this
  /\ setup_repo.policy_post_url o = setup_repo.policy_post_url this.
Proof.
  unfold config_of. intros H; inversion H as [[Hn Hv Hp Hsrc Horg Hst Hh]].
  unfold setup_repo.repo_post_url, setup_repo.repo_get_url,
    setup_repo.pipelines_post_url, setup_repo.pipelines_get_url,
    setup_repo.policy_post_url, setup_repo.dev_azure, setup_repo.api_version_query.
  rewrite Hn, Hv, Hp, Hsrc, Horg. repeat split.
Qed.

(** Goes through a method, statement by statement; what is left are the
    calls to the outside, to be checked against the stage. *)
Ltac emits_go :=
  unfold logger_debug, logger_info, logger_warning, logger_error,
    logger_exception, requests_post, requests_get;
  repeat match goal with
         | H : emits ?this ?P ?m |- emits ?this ?P ?m => exact H
         | |- emits _ _ (ret _) => apply emits_ret
         | |- emits _ _ (raise _) => apply emits_raise
         | |- emits _ _ (of_result _) => apply emits_of_result
         | |- emits _ _ (bind get_self _) => apply emits_get_self; intros ? ?
         | |- emits _ _ (bind _ _) => apply emits_bind; [|intros ?]
         | |- emits _ _ (set_self _) => apply emits_set_self; intros ?; reflexivity
         | |- emits _ _ (emit (ELog _ _)) => apply emits_emit; exact I
         | |- emits _ _ (try_except _ _) =>
             apply emits_try_except;
             [|intros ?; apply Forall_cons; [cbn [snd] | apply Forall_nil]]
         | |- emits _ _ (if ?b then _ else _) => destruct b
         end.

(** A call goes to a URL of the stage: the URLs of an object with the
    same constructor's attributes are those of [this]. *)
Ltac url_goal :=
  cbn [calls_only call_url repo_urls pipeline_urls policy_urls In];
  match goal with
  | H : config_of ?o = config_of _ |- _ =>
      destruct (config_of_urls _ _ H) as [U1 [U2 [U3 [U4 U5]]]];
      rewrite ?U1, ?U2, ?U3, ?U4, ?U5; solve [auto]
  end.

Section Stages.
Import setup_repo.
Variable W : world.
Variable this : CreateAzureRepo.

Lemma get_existing_emits :
  emits this (calls_only (repo_urls this)) (_get_existing_repo_id W).
Proof.
  unfold _get_existing_repo_id. emits_go.
  apply emits_request. url_goal.
Qed.

Lemma create_repo_emits :
  emits this (calls_only (repo_urls this)) (create_azure_devops_repo W).
Proof.
  unfold create_azure_devops_repo. emits_go.
  - apply emits_request. url_goal.
  - apply get_existing_emits.
Qed.

Lemma search_pipelines_emits (pipelines : list value) :
  emits this (calls_only (pipeline_urls this)) (search_pipelines pipelines).
Proof.
  induction pipelines as [|pipeline rest IH]; cbn [search_pipelines]; emits_go.
Qed.

Lemma handle_pull_request_pipeline_emits (response : Response) :
  emits this (calls_only (pipeline_urls this))
    (_handle_pull_request_pipeline W response).
Proof.
  unfold _handle_pull_request_pipeline. emits_go.
  - apply emits_request. url_goal.
  - apply search_pipelines_emits.
Qed.

Lemma create_pipeline_emits (stage : string) :
  emits this (calls_only (pipeline_urls this)) (create_pipeline W stage).
Proof.
  unfold create_pipeline. emits_go.
  - apply emits_request. url_goal.
  - apply handle_pull_request_pipeline_emits.
Qed.

Lemma create_pipelines_emits :
  emits this (calls_only (pipeline_urls this)) (create_pipelines W).
Proof.
  unfold create_pipelines. emits_go.
  apply emits_for_each. apply create_pipeline_emits.
Qed.

Lemma git_migrate_emits : emits this git_only (git_migrate W).
Proof.
  unfold git_migrate. emits_go;
    apply emits_subprocess_run; reflexivity.
Qed.

Lemma create_policy_emits :
  emits this (calls_only (policy_urls this)) (create_pull_request_policy W).
Proof.
  unfold create_pull_request_policy. emits_go.
  apply emits_request. url_goal.
Qed.

End Stages.

(** The workflow, stage by stage. *)
Lemma workflow_run (W : world) (s0 : state setup_repo.CreateAzureRepo) :
  setup_repo.workflow W s0
  = match setup_repo.create_azure_devops_repo W s0 with
    | (Ok true, s1) =>
        match setup_repo.create_pipelines W s1 with
        | (Ok _, s2) =>
            match setup_repo.git_migrate W s2 with
            | (Ok _, s3) =>
                match setup_repo.create_pull_request_policy W s3 with
                | (Ok _, s4) => (Ok tt, s4)
                | (Raise e, s4) => (Raise e, s4)
                end
            | (Raise e, s3) => (Raise e, s3)
            end
        | (Raise e, s2) => (Raise e, s2)
        end
    | (Ok false, s1) => (Ok tt, mkState (self s1) (events s1 ++ [abort_log])%list)
    | (Raise e, s1) => (Raise e, s1)
    end.
Proof.
  unfold setup_repo.workflow, bind.
  destruct (setup_repo.create_azure_devops_repo W s0) as [[[|]|e] s1];
    [|reflexivity|reflexivity].
  destruct (setup_repo.create_pipelines W s1) as [[[]|e] s2]; [|reflexivity].
  destruct (setup_repo.git_migrate W s2) as [[b|e] s3]; [|reflexivity].
  destruct (setup_repo.create_pull_request_policy W s3) as [[b'|e] s4]; reflexivity.
Qed.

(** C2, as the code has it.  The stages run in the order create-or-find
    repository, create pipelines, migrate version history, create branch
    policy: the trace of the workflow is made of four runs of events, in
    that order, the first with calls to the repository URLs only, the
    second to the pipeline URLs only, the third with git commands only
    and the fourth with calls to the policy URL only.  The three later
    stages depend on the first alone: when it does not return [True],
    nothing after it calls the outside; when it does, policy creation
    starts from the state the migration left, whether the migration
    returned [True] or [False], provided pipeline creation returned. *)
Theorem workflow_stage_order (W : world) (s0 : state setup_repo.CreateAzureRepo) :
  let this := self s0 in
  let first := setup_repo.create_azure_devops_repo W s0 in
  let out := setup_repo.workflow W s0 in
  (exists ev1 ev2 ev3 ev4,
     events (snd first) = (events s0 ++ ev1)%list
     /\ events (snd out) = (events s0 ++ ev1 ++ ev2 ++ ev3 ++ ev4)%list
     /\ Forall (calls_only (repo_urls this)) ev1
     /\ Forall (calls_only (pipeline_urls this)) ev2
     /\ Forall git_only ev3
     /\ Forall (calls_only (policy_urls this)) ev4
     /\ (fst first <> Ok true -> Forall quiet (ev2 ++ ev3 ++ ev4)%list))
  /\ (forall s1 s2 s3 migrated,
        first = (Ok true, s1) ->
        setup_repo.create_pipelines W s1 = (Ok tt, s2) ->
        setup_repo.git_migrate W s2 = (Ok migrated, s3) ->
        snd out = snd (setup_repo.create_pull_request_policy W s3)).
Proof.
  intros this first out. subst out. rewrite workflow_run. fold first. split.
  - destruct (create_repo_emits W this s0 eq_refl) as [Hc1 [ev1 [He1 Ha1]]].
    fold first in Hc1, He1.
    destruct first as [[[|]|e1] s1]; cbn [fst snd] in *.
    + destruct (create_pipelines_emits W this s1 Hc1) as [Hc2 [ev2 [He2 Ha2]]].
      destruct (setup_repo.create_pipelines W s1) as [[[]|e2] s2]; cbn [snd] in *.
      * destruct (git_migrate_emits W this s2 Hc2) as [Hc3 [ev3 [He3 Ha3]]].
        destruct (setup_repo.git_migrate W s2) as [[b3|e3] s3]; cbn [snd] in *.
        -- destruct (create_policy_emits W this s3 Hc3) as [Hc4 [ev4 [He4 Ha4]]].
           exists ev1, ev2, ev3, ev4.
           split; [exact He1|]. split.
           ++ destruct (setup_repo.create_pull_request_policy W s3) as [[b4|e4] s4];
                cbn [snd] in *; rewrite He4, He3, He2, He1, <- !app_assoc; reflexivity.
           ++ repeat (split; [assumption|]). intros H; exfalso; apply H; reflexivity.
        -- exists ev1, ev2, ev3, [].
           split; [exact He1|]. split.
           ++ rewrite He3, He2, He1, <- !app_assoc, app_nil_r. reflexivity.
           ++ repeat (split; [first [assumption | constructor]|]).
              intros H; exfalso; apply H; reflexivity.
      * exists ev1, ev2, [], [].
        split; [exact He1|]. split.
        -- rewrite He2, He1, <- !app_assoc, app_nil_r. reflexivity.
        -- repeat (split; [first [assumption | constructor]|]).
           intros H; exfalso; apply H; reflexivity.
    + exists ev1, [abort_log], [], [].
      split; [exact He1|]. split.
      * cbn [events]. rewrite He1, <- !app_assoc. reflexivity.
      * split; [assumption|].
        split; [constructor; [exact I | constructor]|].
        split; [constructor|]. split; [constructor|].
        intros _. constructor; [exact I | constructor].
    + exists ev1, [], [], [].
      split; [exact He1|]. split.
      * rewrite He1, !app_nil_r. reflexivity.
      * repeat (split; [first [assumption | constructor]|]).
        intros _. constructor.
  - intros s1 s2 s3 migrated H1 H2 H3.
    rewrite H1, H2, H3.
    destruct (setup_repo.create_pull_request_policy W s3) as [[b4|e4] s4]; reflexivity.
Qed.

(** C2 does not hold as stated: here the repository and the pipelines
    are created, the migration fails ([git_migrate] returns [False]),
    and the branch-policy stage still runs and sends its POST. *)
Lemma policy_posted_after_failed_migration :
  setup_repo.__init__ "token" "demo" = Ok demo_repo
  /\ setup_repo.create_azure_devops_repo stalled_world stalled_s0
     = (Ok true, stalled_s1)
  /\ setup_repo.create_pipelines stalled_world stalled_s1 = (Ok tt, stalled_s2)
  /\ setup_repo.git_migrate stalled_world stalled_s2 = (Ok false, stalled_s3)
  /\ setup_repo.create_pull_request_policy stalled_world stalled_s3
     = (Ok true, stalled_s4)
  /\ setup_repo.main stalled_world demo_args []
     = (Ok tt, Some (self stalled_s4), events stalled_s4)
  /\ http_calls (events stalled_s4)
     = (http_calls (events stalled_s3) ++ [policy_post (self stalled_s3)])%list.
Proof.
  repeat split; vm_compute; reflexivity.
Qed.

Lemma workflow_stage_order_witness :
  snd (setup_repo.workflow stalled_world stalled_s0)
  = snd (setup_repo.create_pull_request_policy stalled_world stalled_s3).
Proof.
  apply (proj2 (workflow_stage_order stalled_world stalled_s0)
           stalled_s1 stalled_s2 stalled_s3 false);
    vm_compute; reflexivity.
Defined.


(** ** Beyond the comment client: the scripts that use it *)

Section Scripts.
Import pull_request_comment comment.
Variable W : world.

(** [add_validation_reports] as a whole: it returns, and posts the
    reports of the directory. *)
Lemma add_validation_reports_run (msg : Message) (templates_dir : string)
    (t : list event) :
  exists t',
    add_validation_reports W msg templates_dir t = (Ok tt, t')
    /\ http_calls t' = (http_calls t ++ directory_reports W msg templates_dir)%list.
Proof.
  unfold add_validation_reports, directory_reports. cbv zeta.
  destruct (path_exists W (Path templates_dir)); cbn [negb].
  - destruct (report_loop W msg (glob W (Path templates_dir) "*.csv") t)
      as [t' [Hrun Hcalls]].
    exists t'. split; [exact Hrun | exact Hcalls].
  - run_io. eexists; split; [reflexivity|].
    rewrite http_calls_app; cbn [http_calls]. rewrite !app_nil_r. reflexivity.
Qed.

Lemma add_cdk_diff_comment_run (msg : Message) (output_content : option string)
    (t : list event) :
  add_cdk_diff_comment W msg output_content t
  = add_msg W msg (diff_text output_content)
      (t ++ [ELog INFO "Adding CDK diff comment"])%list.
Proof.
  unfold add_cdk_diff_comment, diff_text; run_io.
  destruct output_content as [[|c s]|]; reflexivity.
Qed.

Lemma read_output_file_run (p : string) (t : list event) :
  read_output_file W p t
  = match open_read W p with
    | Ok content => (Ok (Some content), t)
    | Raise e =>
        if caught_by e [FileNotFoundError]
        then (Ok None, (t ++ [ELog ERROR ("Output file not found: " ++ p)])%list)
        else (Raise e,
              (t ++ [ELog ERROR ("Error reading output file: " ++ exn_msg e)])%list)
    end.
Proof.
  unfold read_output_file; run_io.
  destruct (open_read W p) as [content|e]; run_io; [reflexivity|].
  destruct (caught_by e [FileNotFoundError]); run_io; [reflexivity|].
  rewrite caught_by_Exception; run_io. reflexivity.
Qed.

End Scripts.

(** X1.  [read_output_file] returns [None] exactly when [open] finds no
    such file or directory, and logs that; it returns the text exactly
    when the path is a regular file of text that may be read, and logs
    nothing.  Every other failure is logged with the text of the
    exception and raised again, unchanged, and is not turned into
    [None]: a path below a regular file raises [NotADirectoryError], a
    name with a NUL [ValueError], a directory [IsADirectoryError], a
    file that may not be read [PermissionError], and bytes that are no
    text [UnicodeDecodeError]. *)
Theorem read_output_file_outcomes (W : world) (p : string) (t : list event) :
  let out := comment.read_output_file W p t in
  let reraised (cls : exn_class) :=
    exists e,
      out = (Raise e,
             (t ++ [ELog ERROR ("Error reading output file: " ++ exn_msg e)])%list)
      /\ exn_cls e = cls in
  (fst out = Ok None <-> node W p = Absent)
  /\ (node W p = Absent ->
      snd out = (t ++ [ELog ERROR ("Output file not found: " ++ p)])%list)
  /\ (forall content,
        fst out = Ok (Some content) <-> node W p = RegularFile content true)
  /\ (forall content, node W p = RegularFile content true -> snd out = t)
  /\ (forall e, fst out = Raise e ->
        open_read W p = Raise e
        /\ exn_cls e <> FileNotFoundError
        /\ snd out = (t ++ [ELog ERROR ("Error reading output file: "
                                        ++ exn_msg e)])%list)
  /\ (node W p = BelowFile -> reraised NotADirectoryError)
  /\ (node W p = BadName -> reraised ValueError)
  /\ (node W p = Directory -> reraised IsADirectoryError)
  /\ (forall content, node W p = RegularFile content false ->
        reraised PermissionError)
  /\ (forall content complaint,
        node W p = BinaryFile content complaint false ->
        reraised PermissionError)
  /\ (forall content complaint,
        node W p = BinaryFile content complaint true ->
        out = (Raise (Exn UnicodeDecodeError complaint),
               (t ++ [ELog ERROR ("Error reading output file: " ++ complaint)])%list))
  /\ (has_nul p = true -> reraised ValueError).
Proof.
  intros out reraised; subst out reraised. cbv beta.
  rewrite read_output_file_run. unfold open_read, open_file.
  assert (Hnul : has_nul p = true -> node W p = BadName) by apply node_nul.
  destruct (node W p) as [| |content [|]| | |content complaint [|]];
    decide_catch; cbn [fst snd];
    repeat match goal with
           | |- _ /\ _ => split
           | |- _ <-> _ => split
           | |- forall _, _ => intro
           end;
    try discriminate; try reflexivity;
    try match goal with
        | H : Raise _ = Raise _ |- _ => inversion H; subst; cbn [exn_cls]
        | H : Ok _ = Ok _ |- _ => inversion H; reflexivity
        | H : RegularFile _ _ = RegularFile _ _ |- _ => inversion H; reflexivity
        | H : BinaryFile _ _ _ = BinaryFile _ _ _ |- _ => inversion H; reflexivity
        end;
    try discriminate; try reflexivity;
    try (eexists; split; reflexivity);
    match goal with
    | Hp : has_nul p = true |- _ => apply Hnul in Hp; discriminate
    end.
Qed.

Lemma read_output_file_outcomes_witness :
  fst (comment.read_output_file build_world "./missing.log" []) = Ok None
  /\ snd (comment.read_output_file build_world "./output.log" []) = []
  /\ (exists e,
        comment.read_output_file build_world "./output.log/old" []
        = (Raise e, [ELog ERROR ("Error reading output file: " ++ exn_msg e)])
        /\ exn_cls e = NotADirectoryError).
Proof.
  pose proof (read_output_file_outcomes build_world "./missing.log" []) as Hmissing.
  pose proof (read_output_file_outcomes build_world "./output.log" []) as Hthere.
  pose proof (read_output_file_outcomes build_world "./output.log/old" []) as Hbelow.
  cbv zeta in Hmissing, Hthere, Hbelow.
  split; [|split].
  - apply (proj1 Hmissing). reflexivity.
  - apply (proj1 (proj2 (proj2 (proj2 Hthere))) "Stack demo: 1 change").
    reflexivity.
  - apply (proj1 (proj2 (proj2 (proj2 (proj2 (proj2 Hbelow)))))). reflexivity.
Defined.

(** X2.  [add_cdk_diff_comment] never raises and posts exactly one
    comment: the fixed sentence when the content is [None] or empty, the
    content itself otherwise; its result is [True] exactly when that
    post is answered 200. *)
Theorem add_cdk_diff_comment_posts (W : world)
    (msg : pull_request_comment.Message) (output_content : option string)
    (t : list event) :
  let out := comment.add_cdk_diff_comment W msg output_content t in
  let posted (text : string) :=
    http_calls (snd out) = (http_calls t ++ [comment_call msg text])%list
    /\ fst out
       = Ok (Z.eqb (status_code
                      (server W
                         (t ++ [ELog INFO "Adding CDK diff comment";
                                ELog INFO ("Sending PR comment to: "
                                           ++ pull_request_comment.msg_url msg)])%list
                         (comment_call msg text))) 200) in
  (output_content = None \/ output_content = Some EmptyString ->
   posted "CDK Diff found no resource is going to change")
  /\ (forall s, s <> EmptyString -> output_content = Some s -> posted s).
Proof.
  intros out posted; subst out posted; cbv beta.
  rewrite add_cdk_diff_comment_run, add_msg_run; cbn [fst snd].
  rewrite <- !app_assoc; cbn [app].
  assert (Hcalls : forall text,
             http_calls (t ++ [ELog INFO "Adding CDK diff comment";
                               ELog INFO ("Sending PR comment to: "
                                          ++ pull_request_comment.msg_url msg);
                               EHttp (comment_call msg text);
                               ELog INFO (pull_request_comment.response_line
                                  (server W
                                     (t ++ [ELog INFO "Adding CDK diff comment";
                                            ELog INFO ("Sending PR comment to: "
                                               ++ pull_request_comment.msg_url msg)])%list
                                     (comment_call msg text)))])%list
             = (http_calls t ++ [comment_call msg text])%list).
  { intros text. rewrite http_calls_app. reflexivity. }
  split.
  - intros [H|H]; rewrite H; cbn [diff_text]; (split; [apply Hcalls | reflexivity]).
  - intros s Hs H; rewrite H.
    destruct s as [|c s]; [contradiction|]. cbn [diff_text].
    split; [apply Hcalls | reflexivity].
Qed.

Lemma add_cdk_diff_comment_posts_witness :
  http_calls (snd (comment.add_cdk_diff_comment build_world
                     (pull_request_comment.__init__ build_world) None []))
  = [comment_call (pull_request_comment.__init__ build_world)
       "CDK Diff found no resource is going to change"].
Proof.
  apply (proj1 (add_cdk_diff_comment_posts build_world
                  (pull_request_comment.__init__ build_world) None [])).
  left; reflexivity.
Defined.

(** What [open] raises is caught as [FileNotFoundError] for an absent
    file only. *)
Lemma open_read_caught (W : world) (p : string) (e : exn) :
  open_read W p = Raise e ->
  caught_by e [FileNotFoundError]
  = match node W p with Absent => true | _ => false end.
Proof.
  unfold open_read, open_file.
  destruct (node W p) as [| |content [|]| | |content complaint [|]];
    intros H; inversion H; reflexivity.
Qed.

(** X3.  [comment.main] posts the diff comment first and the validation
    reports after it, and returns normally, whatever the server answers
    to the diff comment: with [./output.log] absent the diff comment is
    the fixed sentence, with a readable file it is the content of the
    file.  When the file is there and cannot be read, [main] raises what
    [open] raised and nothing is posted. *)
Theorem comment_main_posts (W : world) (t : list event) :
  let msg := pull_request_comment.__init__ W in
  let out := comment.main W t in
  let posts (output_content : option string) :=
    fst out = Ok tt
    /\ http_calls (snd out)
       = (http_calls t
          ++ comment_call msg (diff_text output_content)
             :: directory_reports W msg "./synth/templates/")%list in
  (path_node W "./output.log" = Absent -> posts None)
  /\ (forall content,
        path_node W "./output.log" = RegularFile content true ->
        posts (Some content))
  /\ (forall e,
        open_read W "./output.log" = Raise e ->
        path_node W "./output.log" <> Absent ->
        fst out = Raise e /\ http_calls (snd out) = http_calls t).
Proof.
  intros msg out posts.
  assert (Hposts : forall output_content t0,
            comment.read_output_file W "./output.log" t = (Ok output_content, t0) ->
            http_calls t0 = http_calls t ->
            posts output_content).
  { intros oc t0 Hread Hcalls0. subst posts out; cbv beta.
    unfold comment.main; run_io. rewrite Hread.
    rewrite add_cdk_diff_comment_run, add_msg_run; cbn [fst snd].
    match goal with
    | |- context [negb (Z.eqb ?c 200)] => destruct (Z.eqb c 200)
    end; run_io;
      match goal with
      | |- context [comment.add_validation_reports W ?m ?d ?t1] =>
          destruct (add_validation_reports_run W m d t1) as [t' [Hrun Hcalls]]
      end;
      fold msg in Hrun, Hcalls |- *; rewrite Hrun; cbn [fst snd];
      (split; [reflexivity|]);
      rewrite Hcalls, !http_calls_app, Hcalls0; cbn [http_calls app];
      rewrite <- ?app_assoc; cbn [app]; reflexivity. }
  split; [|split].
  - intros Habs. apply (Hposts None (t ++ [ELog ERROR ("Output file not found: "
                                                       ++ "./output.log")])%list).
    + rewrite read_output_file_run. unfold open_read, open_file.
      change (node W "./output.log") with (path_node W "./output.log").
      rewrite Habs. decide_catch. reflexivity.
    + rewrite http_calls_app. cbn [http_calls]. apply app_nil_r.
  - intros content Hnode. apply (Hposts (Some content) t); [|reflexivity].
    rewrite read_output_file_run. unfold open_read, open_file.
    change (node W "./output.log") with (path_node W "./output.log").
    rewrite Hnode. reflexivity.
  - intros e Hopen Hnode. subst out.
    unfold comment.main; run_io. rewrite read_output_file_run, Hopen.
    rewrite (open_read_caught W _ e Hopen).
    change (node W "./output.log") with (path_node W "./output.log").
    destruct (path_node W "./output.log"); try contradiction; cbn [fst snd];
      (split; [reflexivity|]);
      rewrite http_calls_app; cbn [http_calls]; apply app_nil_r.
Qed.

Lemma comment_main_posts_witness :
  fst (comment.main build_world []) = Ok tt
  /\ length (http_calls (snd (comment.main build_world []))) = 3.
Proof.
  destruct (proj1 (proj2 (comment_main_posts build_world []))
              "Stack demo: 1 change" eq_refl) as [Hr Hc].
  split; [exact Hr | rewrite Hc; reflexivity].
Defined.

(** X4.  [architecture.main] does not look at what the upload returns:
    whenever [upload_attachment_and_comment] returns, with [True] or
    with [False], [main] returns normally and logs the success line.  So
    with no diagram on disk it makes no HTTP call and still logs the
    success line, after the line of the upload for the missing file,
    which names the path as [Path] writes it, without the leading "./".
    When the upload raises, [main] logs the failure at level ERROR and
    raises the same exception. *)
Theorem architecture_main_outcomes (W : world) (t : list event) :
  let t1 := (t ++ [ELog INFO ("Uploading architecture diagram from "
                              ++ architecture.diagram_path)])%list in
  let up := pull_request_comment.upload_attachment_and_comment W
              (pull_request_comment.__init__ W) architecture.diagram_path t1 in
  let success :=
    ELog INFO "Successfully uploaded architecture diagram to PR comment" in
  (forall uploaded, fst up = Ok uploaded ->
     architecture.main W t = (Ok tt, (snd up ++ [success])%list))
  /\ (forall e, fst up = Raise e ->
        architecture.main W t
        = (Raise e,
           (snd up ++ [ELog ERROR ("Failed to upload architecture diagram: "
                                   ++ exn_msg e)])%list))
  /\ (is_file W "cdk.out/cdkgraph/diagram.png" = false ->
      architecture.main W t
      = (Ok tt,
         (t ++ [ELog INFO
                  "Uploading architecture diagram from ./cdk.out/cdkgraph/diagram.png";
                ELog ERROR "File does not exist: cdk.out/cdkgraph/diagram.png";
                success])%list)).
Proof.
  intros t1 up success.
  assert (Hmain : architecture.main W t
                  = match up with
                    | (Ok _, t2) => (Ok tt, (t2 ++ [success])%list)
                    | (Raise e, t2) =>
                        (Raise e,
                         (t2 ++ [ELog ERROR ("Failed to upload architecture diagram: "
                                             ++ exn_msg e)])%list)
                    end).
  { unfold architecture.main; run_io. fold t1. fold up.
    destruct up as [[b|e] t2]; run_io; [reflexivity|].
    rewrite caught_by_Exception; run_io. reflexivity. }
  split; [|split].
  - intros b Hup. rewrite Hmain. destruct up as [[b'|e] t2]; [reflexivity|discriminate].
  - intros e Hup. rewrite Hmain. destruct up as [[b'|e'] t2]; [discriminate|].
    cbn [fst snd] in *. inversion Hup; subst. reflexivity.
  - intros Hfile. rewrite Hmain. subst up.
    rewrite (upload_missing_run W _ architecture.diagram_path t1 Hfile).
    subst t1. rewrite <- !app_assoc. reflexivity.
Qed.

Lemma architecture_main_outcomes_witness :
  architecture.main fabrikam_world []
  = (Ok tt,
     [ELog INFO "Uploading architecture diagram from ./cdk.out/cdkgraph/diagram.png";
      ELog ERROR "File does not exist: cdk.out/cdkgraph/diagram.png";
      ELog INFO "Successfully uploaded architecture diagram to PR comment"]).
Proof.
  exact (proj2 (proj2 (architecture_main_outcomes fabrikam_world [])) eq_refl).
Defined.



(** ** Beyond loading: reading the configuration *)

(** X6.  [get_value] on a mapping: a key that is there gives its value,
    with no log and no change; a key that is not there gives the
    default, after an ERROR line and a DEBUG line that lists the keys,
    and the mapping is left as it was.  When [data] is not a mapping
    (the file held a JSON list, say), [get_value] raises [TypeError]
    instead of giving the default. *)
Theorem get_value_lookup (W : world) (s : state config.CDKConfig)
    (key : string) (default : value) :
  let out := config.get_value W key default s in
  (forall kv, config.data (self s) = VDict kv ->
     (forall v, dict_lookup kv key = Some v -> out = (Ok v, s))
     /\ (dict_lookup kv key = None ->
         fst out = Ok default
         /\ self (snd out) = self s
         /\ events (snd out)
            = (events s ++
               [ELog ERROR ("Key " ++ squote key
                            ++ " not found in configuration for environment "
                            ++ squote (config._environment (self s)));
                ELog DEBUG ("Available keys: "
                            ++ py_repr W (VList (map (fun p => VStr (fst p)) kv)))])%list))
  /\ ((forall kv, config.data (self s) <> VDict kv) ->
      exists e, out = (Raise e, s) /\ exn_cls e = TypeError).
Proof.
  intros out; subst out. split.
  - intros kv Hdata. split.
    + intros v Hkey. unfold config.get_value; run_io.
      rewrite Hdata; cbn [subscript]. rewrite Hkey; run_io.
      destruct s; reflexivity.
    + intros Hkey. unfold config.get_value; run_io.
      rewrite Hdata; cbn [subscript]. rewrite Hkey; run_io.
      decide_catch; run_io. rewrite Hdata; cbn [py_iter]; run_io.
      rewrite <- app_assoc. repeat split.
  - intros Hnot. unfold config.get_value; run_io.
    destruct (config.data (self s)) as [| | | | | |kv] eqn:Hdata;
      try (exfalso; apply (Hnot kv); reflexivity);
      cbn [subscript type_name]; run_io; decide_catch; run_io;
      (eexists; split; [destruct s; reflexivity | reflexivity]).
Qed.

Lemma get_value_lookup_witness :
  config.get_value config_world "AWSRegion" (VStr "d")
    (mkState (config.mkCDKConfig "developer"
                (VDict [("AWSRegion", VStr "eu-central-1")])) [])
  = (Ok (VStr "eu-central-1"),
     mkState (config.mkCDKConfig "developer"
                (VDict [("AWSRegion", VStr "eu-central-1")])) [])
  /\ fst (config.get_value config_world "missing" (VStr "d")
            (mkState (config.mkCDKConfig "developer"
                        (VDict [("AWSRegion", VStr "eu-central-1")])) []))
     = Ok (VStr "d").
Proof.
  split.
  - apply (proj1 (proj1 (get_value_lookup config_world
                           (mkState (config.mkCDKConfig "developer"
                                       (VDict [("AWSRegion", VStr "eu-central-1")])) [])
                           "AWSRegion" (VStr "d"))
                    [("AWSRegion", VStr "eu-central-1")] eq_refl)).
    reflexivity.
  - apply (proj2 (proj1 (get_value_lookup config_world
                           (mkState (config.mkCDKConfig "developer"
                                       (VDict [("AWSRegion", VStr "eu-central-1")])) [])
                           "missing" (VStr "d"))
                    [("AWSRegion", VStr "eu-central-1")] eq_refl)).
    reflexivity.
Defined.

(** X7.  Constructing a [CDKConfig] and reading from it: when
    [config/E.json] can be read and holds a JSON document, the
    constructor returns without a log and [data] is that document,
    whatever the object held before.  If the document is an object,
    [get_value] then gives the value the file has under the key, and the
    default for a key the file does not have. *)
Theorem config_init_then_get_value (W : world) (environment : string)
    (s : state config.CDKConfig) (content : string) (document : value) :
  open_read W (config.config_path environment) = Ok content ->
  json_loads W content = inr document ->
  let built := config.__init__ W environment s in
  fst built = Ok tt
  /\ self (snd built) = config.mkCDKConfig environment document
  /\ events (snd built) = events s
  /\ (forall kv key default,
        document = VDict kv ->
        fst (config.get_value W key default (snd built))
        = Ok match dict_lookup kv key with Some v => v | None => default end).
Proof.
  intros Hopen Hjson built.
  assert (Hbuilt : built = (Ok tt, mkState (config.mkCDKConfig environment document)
                                     (events s))).
  { subst built. unfold config.__init__; run_io.
    rewrite (load_config_loads W
               (mkState (config.mkCDKConfig environment (VDict [])) (events s))
               content document Hopen Hjson).
    reflexivity. }
  rewrite Hbuilt; cbn [fst snd self events]. repeat split.
  intros kv key default Hdoc. subst document.
  unfold config.get_value; run_io. cbn [config.data subscript].
  destruct (dict_lookup kv key) as [v|]; run_io; [reflexivity|].
  decide_catch; run_io. cbn [config.data py_iter]; run_io. reflexivity.
Qed.

Lemma config_init_then_get_value_witness :
  fst (config.get_value config_world "AWSRegion" VNone
         (snd (config.__init__ config_world "developer" (fresh_config "other"))))
  = Ok (VStr "eu-central-1").
Proof.
  exact (proj2 (proj2 (proj2
           (config_init_then_get_value config_world "developer"
              (fresh_config "other") "{ok}"
              (VDict [("AWSRegion", VStr "eu-central-1")]) eq_refl eq_refl)))
           [("AWSRegion", VStr "eu-central-1")] "AWSRegion" VNone eq_refl).
Defined.

(** ** Beyond the repository: pipelines, migration and the policy *)

Lemma git_runs_app (t u : list event) :
  git_runs (t ++ u) = (git_runs t ++ git_runs u)%list.
Proof.
  induction t as [|e t IH]; simpl; [reflexivity|].
  destruct e; simpl; rewrite IH; reflexivity.
Qed.

Section Pipelines.
Import setup_repo.
Variable W : world.

(** The search goes past the entries that are not taken, in a state it
    leaves as it is. *)
Lemma search_pipelines_skip (pipeline : value) (rest : list value)
    (s : state CreateAzureRepo) :
  passed_over (new_repo_name (self s)) pipeline ->
  search_pipelines (pipeline :: rest) s = search_pipelines rest s.
Proof.
  intros [kv [name [Hp [Hname Hno]]]]. subst pipeline.
  cbn [search_pipelines]; run_io. cbn [py_get].
  assert (Hget : match dict_lookup kv "name" with
                 | Some x => Ok x
                 | None => Ok (VStr EmptyString)
                 end = Ok (VStr name))
    by (destruct (dict_lookup kv "name"); rewrite <- Hname; reflexivity).
  rewrite Hget; run_io. cbn [py_in].
  unfold pr_pipeline_for in Hno.
  destruct (is_substring (new_repo_name (self s)) name); run_io.
  - cbn [py_in]. cbn [andb] in Hno. rewrite Hno; run_io. reflexivity.
  - reflexivity.
Qed.

Lemma search_pipelines_take (kv : list (string * value)) (name : string)
    (id : value) (rest : list value) (s : state CreateAzureRepo) :
  dict_lookup kv "name" = Some (VStr name) ->
  pr_pipeline_for (new_repo_name (self s)) name = true ->
  dict_lookup kv "id" = Some id ->
  search_pipelines (VDict kv :: rest) s
  = (Ok tt,
     mkState (set_cicd_pull_request_id id (self s))
       (events s ++ [found_log (self s)])%list).
Proof.
  intros Hname Hyes Hid.
  cbn [search_pipelines]; run_io. cbn [py_get]. rewrite Hname; run_io.
  unfold pr_pipeline_for in Hyes. apply andb_true_iff in Hyes as [Hrepo Hpr].
  cbn [py_in]. rewrite Hrepo; run_io. cbn [py_in]. rewrite Hpr; run_io.
  cbn [subscript]. rewrite Hid; run_io. reflexivity.
Qed.

End Pipelines.

(** X8.  The search for the pull-request pipeline takes the first entry
    of the listing whose name holds both the repository name and
    "pull-request": its id becomes [cicd_pull_request_id], one line is
    logged, and the entries after it are not looked at, whatever they
    are.  When no entry is taken, the search returns with the session
    and the trace as they were. *)
Theorem search_pipelines_first_match (s : state setup_repo.CreateAzureRepo)
    (before : list value) :
  Forall (passed_over (setup_repo.new_repo_name (self s))) before ->
  setup_repo.search_pipelines before s = (Ok tt, s)
  /\ (forall kv name id after,
        dict_lookup kv "name" = Some (VStr name) ->
        pr_pipeline_for (setup_repo.new_repo_name (self s)) name = true ->
        dict_lookup kv "id" = Some id ->
        setup_repo.search_pipelines (before ++ VDict kv :: after)%list s
        = (Ok tt,
           mkState (setup_repo.set_cicd_pull_request_id id (self s))
             (events s ++ [found_log (self s)])%list)).
Proof.
  induction 1 as [|pipeline before Hp _ [IHnone IHsome]].
  - split; [reflexivity|].
    intros kv name id after Hname Hyes Hid. cbn [app].
    apply (search_pipelines_take kv name id after s Hname Hyes Hid).
  - split.
    + rewrite (search_pipelines_skip pipeline before s Hp). exact IHnone.
    + intros kv name id after Hname Hyes Hid. cbn [app].
      rewrite (search_pipelines_skip pipeline _ s Hp).
      apply (IHsome kv name id after Hname Hyes Hid).
Qed.

Lemma search_pipelines_first_match_witness :
  setup_repo.cicd_pull_request_id
    (self (snd (setup_repo.search_pipelines
                  [VDict [("id", VInt 11); ("name", VStr "demo-development")];
                   VDict [("id", VInt 12); ("name", VStr "demo2-pull-request")];
                   VDict [("id", VInt 13); ("name", VStr "demo-pull-request")]]
                  (mkState demo_created []))))
  = VInt 12.
Proof.
  assert (Hbefore : Forall (passed_over "demo")
                      [VDict [("id", VInt 11); ("name", VStr "demo-development")]]).
  { constructor; [|constructor].
    exists [("id", VInt 11); ("name", VStr "demo-development")], "demo-development".
    repeat split. }
  pose proof (proj2 (search_pipelines_first_match (mkState demo_created []) _ Hbefore)
                [("id", VInt 12); ("name", VStr "demo2-pull-request")]
                "demo2-pull-request" (VInt 12)
                [VDict [("id", VInt 13); ("name", VStr "demo-pull-request")]]
                eq_refl eq_refl eq_refl) as Hfound.
  cbn [app] in Hfound. rewrite Hfound. reflexivity.
Defined.

Section PullRequestPipeline.
Import setup_repo.
Variable W : world.

(** The search makes no call to the outside, however it ends. *)
Lemma search_pipelines_quiet (pipelines : list value) (s : state CreateAzureRepo) :
  http_calls (events (snd (search_pipelines pipelines s))) = http_calls (events s).
Proof.
  revert s; induction pipelines as [|pipeline rest IH]; intros s; [reflexivity|].
  cbn [search_pipelines]; run_io.
  destruct (py_get pipeline "name" (VStr EmptyString)) as [name|e]; run_io;
    [|reflexivity].
  destruct (py_in (new_repo_name (self s)) name) as [[|]|e]; run_io;
    [| apply IH | reflexivity].
  destruct (py_in "pull-request" name) as [[|]|e]; run_io;
    [| apply IH | reflexivity].
  destruct (subscript pipeline "id") as [id|e]; run_io; [|reflexivity].
  rewrite http_calls_app; cbn [http_calls]. apply app_nil_r.
Qed.

Lemma handle_without_id (response : Response) (s : state CreateAzureRepo) :
  (json_body response = None
   \/ exists kv, json_body response = Some (VDict kv) /\ dict_lookup kv "id" = None) ->
  _handle_pull_request_pipeline W response s = lookup_pipelines W s.
Proof.
  intros Hbody. unfold _handle_pull_request_pipeline, lookup_pipelines; run_io.
  unfold response_json at 1.
  destruct Hbody as [Hjson | [kv [Hjson Hid]]]; rewrite Hjson; run_io.
  - decide_catch; run_io. unfold searching_log, pipelines_get.
    destruct (Z.eqb _ 200); reflexivity.
  - cbn [subscript]. rewrite Hid; run_io. decide_catch; run_io.
    unfold searching_log, pipelines_get.
    destruct (Z.eqb _ 200); reflexivity.
Qed.

Lemma lookup_pipelines_calls (s : state CreateAzureRepo) :
  http_calls (events (snd (lookup_pipelines W s)))
  = (http_calls (events s) ++ [pipelines_get (self s)])%list.
Proof.
  unfold lookup_pipelines.
  destruct (Z.eqb _ 200); cbn [snd events].
  - run_io. unfold response_json.
    destruct (json_body _) as [body|]; run_io.
    + destruct (py_get body "value" (VList [])) as [listed|e]; run_io.
      * destruct (py_iter listed) as [pipelines|e]; run_io.
        -- pose proof (search_pipelines_quiet pipelines
                         (mkState (self s)
                            ((events s ++ [searching_log (self s)])
                             ++ [EHttp (pipelines_get (self s))])%list)) as Hq.
           cbn [events] in Hq.
           destruct (search_pipelines pipelines _) as [[[]|e] s2]; cbn [snd] in *.
           ++ rewrite Hq, !http_calls_app; cbn [http_calls searching_log].
              rewrite app_nil_r. reflexivity.
           ++ destruct (caught_by e [KeyError; ValueError]); run_io;
                rewrite ?http_calls_app, Hq, !http_calls_app;
                cbn [http_calls searching_log]; rewrite ?app_nil_r; reflexivity.
        -- destruct (caught_by e [KeyError; ValueError]); run_io;
             rewrite !http_calls_app; cbn [http_calls searching_log];
             rewrite ?app_nil_r; reflexivity.
      * destruct (caught_by e [KeyError; ValueError]); run_io;
          rewrite !http_calls_app; cbn [http_calls searching_log];
          rewrite ?app_nil_r; reflexivity.
    + decide_catch; run_io.
      rewrite !http_calls_app; cbn [http_calls searching_log].
      rewrite ?app_nil_r. reflexivity.
  - rewrite !http_calls_app; cbn [http_calls searching_log].
    rewrite ?app_nil_r. reflexivity.
Qed.

End PullRequestPipeline.

Lemma search_pipelines_past (before rest : list value)
    (s : state setup_repo.CreateAzureRepo) :
  Forall (passed_over (setup_repo.new_repo_name (self s))) before ->
  setup_repo.search_pipelines (before ++ rest)%list s
  = setup_repo.search_pipelines rest s.
Proof.
  induction 1 as [|pipeline before Hp _ IH]; [reflexivity|].
  cbn [app]. rewrite (search_pipelines_skip pipeline _ s Hp). exact IH.
Qed.

(** X9.  [_handle_pull_request_pipeline].  When the response to the
    creation is an object with an "id", that id is what
    [cicd_pull_request_id] holds afterwards, and nothing else happens:
    the other attributes are as before, no log, no call.  When the body
    is not JSON, or is an object without "id",
    the method logs, and lists the pipelines of the source project with
    one GET, which is the only call it makes however the lookup ends; a
    listing answered with a status other than 200 leaves the session as
    it was, with an ERROR line, and the method returns normally. *)
Theorem handle_pull_request_pipeline_outcomes (W : world) (response : Response)
    (s : state setup_repo.CreateAzureRepo) :
  let this := self s in
  let out := setup_repo._handle_pull_request_pipeline W response s in
  let t1 := (events s ++ [searching_log this])%list in
  let found := server W t1 (pipelines_get this) in
  (forall kv id,
     json_body response = Some (VDict kv) -> dict_lookup kv "id" = Some id ->
     fst out = Ok tt
     /\ events (snd out) = events s
     /\ setup_repo.cicd_pull_request_id (self (snd out)) = id
     /\ setup_repo.new_repository_id (self (snd out))
        = setup_repo.new_repository_id this
     /\ config_of (self (snd out)) = config_of this)
  /\ (json_body response = None
      \/ (exists kv, json_body response = Some (VDict kv)
                     /\ dict_lookup kv "id" = None) ->
      http_calls (events (snd out))
      = (http_calls (events s) ++ [pipelines_get this])%list
      /\ (status_code found <> 200%Z ->
          out = (Ok tt,
                 mkState this
                   (t1 ++ [EHttp (pipelines_get this);
                           ELog ERROR ("Failed to retrieve pipelines: "
                                       ++ str_of_Z (status_code found))])%list))).
Proof.
  intros this out t1 found. subst out. split.
  - intros kv id Hjson Hid.
    unfold setup_repo._handle_pull_request_pipeline; run_io.
    unfold response_json. rewrite Hjson; run_io.
    cbn [subscript]. rewrite Hid; run_io. repeat split.
  - intros Hbody. rewrite (handle_without_id W response s Hbody). split.
    + apply lookup_pipelines_calls.
    + intros Hst. unfold lookup_pipelines. fold this. fold t1. fold found.
      apply Z.eqb_neq in Hst. rewrite Hst. cbn [events].
      rewrite <- app_assoc. reflexivity.
Qed.

Lemma handle_pull_request_pipeline_outcomes_witness :
  setup_repo.cicd_pull_request_id
    (self (snd (setup_repo._handle_pull_request_pipeline stalled_world
                  (answer 200 "OK" (Some (VDict [("id", VInt 7)])))
                  (mkState demo_created []))))
  = VInt 7
  /\ http_calls (events (snd (setup_repo._handle_pull_request_pipeline lost_world
                                (answer 409 "Conflict" None)
                                (mkState demo_created []))))
     = [pipelines_get demo_created].
Proof.
  split.
  - exact (proj1 (proj2 (proj2
             (proj1 (handle_pull_request_pipeline_outcomes stalled_world
                       (answer 200 "OK" (Some (VDict [("id", VInt 7)])))
                       (mkState demo_created []))
                [("id", VInt 7)] (VInt 7) eq_refl eq_refl)))).
  - exact (proj1 (proj2 (handle_pull_request_pipeline_outcomes lost_world
                           (answer 409 "Conflict" None) (mkState demo_created []))
                    (or_introl eq_refl))).
Defined.

(** X10.  The lookup of an existing pull-request pipeline.  When the
    creation gave no id and the listing is answered 200 with an object,
    the entries of its "value" list are gone through in order.  If none
    is taken (or there is no "value"), the session stays as it was and
    nothing more is logged.  Otherwise the first entry taken decides:
    its "id" becomes [cicd_pull_request_id]; if it has no "id", the
    search ends there with an ERROR line and no id is stored, even when
    a later entry would have been taken. *)
Theorem pull_request_pipeline_lookup (W : world) (response : Response)
    (s : state setup_repo.CreateAzureRepo) (listed : list (string * value))
    (before : list value) :
  let this := self s in
  let out := setup_repo._handle_pull_request_pipeline W response s in
  let t1 := (events s ++ [searching_log this])%list in
  let found := server W t1 (pipelines_get this) in
  let t2 := (t1 ++ [EHttp (pipelines_get this)])%list in
  (json_body response = None
   \/ exists kv, json_body response = Some (VDict kv) /\ dict_lookup kv "id" = None) ->
  status_code found = 200%Z ->
  json_body found = Some (VDict listed) ->
  Forall (passed_over (setup_repo.new_repo_name this)) before ->
  (dict_lookup listed "value" = Some (VList before)
   \/ (dict_lookup listed "value" = None /\ before = []) ->
   out = (Ok tt, mkState this t2))
  /\ (forall kv name after,
        dict_lookup listed "value" = Some (VList (before ++ VDict kv :: after)) ->
        dict_lookup kv "name" = Some (VStr name) ->
        pr_pipeline_for (setup_repo.new_repo_name this) name = true ->
        (forall id, dict_lookup kv "id" = Some id ->
           out = (Ok tt,
                  mkState (setup_repo.set_cicd_pull_request_id id this)
                    (t2 ++ [found_log this])%list))
        /\ (dict_lookup kv "id" = None ->
            out = (Ok tt,
                   mkState this
                     (t2 ++ [ELog ERROR ("Error parsing pipeline data: "
                                         ++ squote "id")])%list))).
Proof.
  intros this out t1 found t2 Hbody Hst Hjson Hbefore. subst out.
  rewrite (handle_without_id W response s Hbody).
  unfold lookup_pipelines. fold this. fold t1. fold found. fold t2.
  rewrite Hst, Z.eqb_refl; run_io. unfold response_json. rewrite Hjson; run_io.
  cbn [py_get]. split.
  - intros [Hvalue | [Hvalue Hnil]]; rewrite Hvalue; run_io; cbn [py_iter]; run_io.
    + rewrite <- (app_nil_r before).
      rewrite (search_pipelines_past before [] (mkState this t2) Hbefore).
      reflexivity.
    + reflexivity.
  - intros kv name after Hvalue Hname Hyes.
    rewrite Hvalue; run_io. cbn [py_iter]; run_io.
    rewrite (search_pipelines_past before (VDict kv :: after) (mkState this t2) Hbefore).
    split.
    + intros id Hid.
      rewrite (search_pipelines_take kv name id after (mkState this t2) Hname Hyes Hid).
      reflexivity.
    + intros Hid.
      cbn [setup_repo.search_pipelines]; run_io. cbn [py_get]. rewrite Hname; run_io.
      unfold pr_pipeline_for in Hyes. apply andb_true_iff in Hyes as [Hrepo Hpr].
      cbn [py_in]. rewrite Hrepo; run_io. cbn [py_in]. rewrite Hpr; run_io.
      cbn [subscript]. rewrite Hid; run_io. decide_catch; run_io. reflexivity.
Qed.

Lemma pull_request_pipeline_lookup_witness :
  setup_repo.cicd_pull_request_id
    (self (snd (setup_repo._handle_pull_request_pipeline existing_world
                  (answer 409 "Conflict" (Some (VDict [("message", VStr "exists")])))
                  (mkState demo_created []))))
  = VInt 12.
Proof.
  assert (Hbefore : Forall (passed_over "demo")
                      [VDict [("id", VInt 11); ("name", VStr "demo-development")]]).
  { constructor; [|constructor].
    exists [("id", VInt 11); ("name", VStr "demo-development")], "demo-development".
    repeat split. }
  rewrite (proj1 (proj2 (pull_request_pipeline_lookup existing_world
             (answer 409 "Conflict" (Some (VDict [("message", VStr "exists")])))
             (mkState demo_created [])
             [("count", VInt 3);
              ("value",
               VList [VDict [("id", VInt 11); ("name", VStr "demo-development")];
                      VDict [("id", VInt 12); ("name", VStr "demo2-pull-request")];
                      VDict [("id", VInt 13); ("name", VStr "demo-pull-request")]])]
             [VDict [("id", VInt 11); ("name", VStr "demo-development")]]
             (or_intror (ex_intro _ [("message", VStr "exists")] (conj eq_refl eq_refl)))
             eq_refl eq_refl Hbefore)
             [("id", VInt 12); ("name", VStr "demo2-pull-request")]
             "demo2-pull-request"
             [VDict [("id", VInt 13); ("name", VStr "demo-pull-request")]]
             eq_refl eq_refl eq_refl) (VInt 12) eq_refl).
  reflexivity.
Defined.

Section CreatePipelines.
Import setup_repo.
Variable W : world.

Lemma pipeline_id_only_refl (this : CreateAzureRepo) : pipeline_id_only this this.
Proof. left; reflexivity. Qed.

Lemma pipeline_id_only_set (this : CreateAzureRepo) (id : value) :
  pipeline_id_only this (set_cicd_pull_request_id id this).
Proof. right; exists id; reflexivity. Qed.

(** The search changes the id of the pull-request pipeline at most. *)
Lemma search_pipelines_keeps (pipelines : list value) (s : state CreateAzureRepo) :
  pipeline_id_only (self s) (self (snd (search_pipelines pipelines s))).
Proof.
  revert s; induction pipelines as [|pipeline rest IH]; intros s;
    [apply pipeline_id_only_refl|].
  cbn [search_pipelines]; run_io.
  destruct (py_get pipeline "name" (VStr EmptyString)) as [name|e]; run_io;
    [|apply pipeline_id_only_refl].
  destruct (py_in (new_repo_name (self s)) name) as [[|]|e]; run_io;
    [| apply IH | apply pipeline_id_only_refl].
  destruct (py_in "pull-request" name) as [[|]|e]; run_io;
    [| apply IH | apply pipeline_id_only_refl].
  destruct (subscript pipeline "id") as [id|e]; run_io;
    [apply pipeline_id_only_set | apply pipeline_id_only_refl].
Qed.

Lemma lookup_pipelines_keeps (s : state CreateAzureRepo) :
  pipeline_id_only (self s) (self (snd (lookup_pipelines W s))).
Proof.
  unfold lookup_pipelines.
  destruct (Z.eqb _ 200); cbn [snd self]; [|apply pipeline_id_only_refl].
  run_io. unfold response_json.
  destruct (json_body _) as [body|]; run_io.
  - destruct (py_get body "value" (VList [])) as [listed|e]; run_io.
    + destruct (py_iter listed) as [pipelines|e]; run_io.
      * pose proof (search_pipelines_keeps pipelines
                      (mkState (self s)
                         ((events s ++ [searching_log (self s)])
                          ++ [EHttp (pipelines_get (self s))])%list)) as Hk.
        cbn [self] in Hk.
        destruct (search_pipelines pipelines _) as [[[]|e] s2]; cbn [snd] in *.
        -- exact Hk.
        -- destruct (caught_by e [KeyError; ValueError]); run_io; exact Hk.
      * destruct (caught_by e [KeyError; ValueError]); run_io;
          apply pipeline_id_only_refl.
    + destruct (caught_by e [KeyError; ValueError]); run_io;
        apply pipeline_id_only_refl.
  - decide_catch; run_io. apply pipeline_id_only_refl.
Qed.

(** An id in the response to the creation is stored, and that is all. *)
Lemma handle_pull_request_pipeline_run_direct (response : Response)
    (s : state CreateAzureRepo) (body id : value) :
  json_body response = Some body ->
  subscript body "id" = Ok id ->
  _handle_pull_request_pipeline W response s
  = (Ok tt, mkState (set_cicd_pull_request_id id (self s)) (events s))
  /\ answers_with_id response = true.
Proof.
  intros Hjson Hid. split.
  - unfold _handle_pull_request_pipeline; run_io.
    unfold response_json. rewrite Hjson; run_io. rewrite Hid; run_io. reflexivity.
  - unfold answers_with_id. rewrite Hjson, Hid. reflexivity.
Qed.

(** [_handle_pull_request_pipeline] in full: by the response to the
    creation, it stores the id, or looks the pipeline up, or raises the
    [TypeError] of a body that is no object. *)
Lemma handle_cases (response : Response) (s : state CreateAzureRepo) :
  (answers_with_id response = true
   /\ exists id, _handle_pull_request_pipeline W response s
                 = (Ok tt, mkState (set_cicd_pull_request_id id (self s)) (events s)))
  \/ (answers_with_id response = false
      /\ _handle_pull_request_pipeline W response s = lookup_pipelines W s)
  \/ (answers_with_id response = false
      /\ exists e, _handle_pull_request_pipeline W response s = (Raise e, s)).
Proof.
  unfold answers_with_id.
  destruct (json_body response) as [body|] eqn:Hjson.
  - destruct (subscript body "id") as [id|e] eqn:Hid.
    + left. split; [reflexivity|]. exists id.
      unfold _handle_pull_request_pipeline; run_io.
      unfold response_json. rewrite Hjson; run_io. rewrite Hid; run_io. reflexivity.
    + right. destruct body as [| | | | | |kv];
        try (right; split; [reflexivity|];
             unfold _handle_pull_request_pipeline; run_io;
             unfold response_json; rewrite Hjson; run_io;
             cbn [subscript type_name]; run_io; decide_catch; run_io;
             eexists; destruct s; reflexivity).
      left. split; [reflexivity|].
      apply handle_without_id. right. exists kv. split; [exact Hjson|].
      cbn [subscript] in Hid. destruct (dict_lookup kv "id"); [discriminate|reflexivity].
  - right; left. split; [reflexivity|].
    apply handle_without_id. left; exact Hjson.
Qed.

(** One turn of the loop, for a stage other than "pull-request" and for
    "pull-request". *)
Lemma create_pipeline_plain (stage : string) (s : state CreateAzureRepo) :
  String.eqb stage "pull-request" = false ->
  create_pipeline W stage s
  = (Ok tt,
     mkState (self s)
       (events s ++ EHttp (pipeline_post (self s) stage)
        :: pipeline_logs (server W (events s) (pipeline_post (self s) stage)))%list).
Proof.
  intros Hstage. unfold create_pipeline, pipeline_post, pipeline_logs; run_io.
  rewrite Hstage; run_io.
  destruct (Z.eqb _ 200); run_io; rewrite <- !app_assoc; reflexivity.
Qed.

Lemma create_pipeline_pull_request (s : state CreateAzureRepo) :
  let post := pipeline_post (self s) "pull-request" in
  let response := server W (events s) post in
  create_pipeline W "pull-request" s
  = match _handle_pull_request_pipeline W response
            (mkState (self s) (events s ++ [EHttp post])%list) with
    | (Ok _, s2) =>
        (Ok tt, mkState (self s2) (events s2 ++ pipeline_logs response)%list)
    | (Raise e, s2) => (Raise e, s2)
    end.
Proof.
  intros post response. subst response post.
  unfold create_pipeline, pipeline_post, pipeline_logs; run_io.
  cbn [String.eqb Ascii.eqb Bool.eqb]; run_io.
  destruct (_handle_pull_request_pipeline W _ _) as [[[]|e] s2]; run_io;
    [|reflexivity].
  destruct (Z.eqb _ 200); run_io; rewrite <- !app_assoc; reflexivity.
Qed.

End CreatePipelines.

Lemma http_calls_pipeline_logs (response : Response) :
  http_calls (pipeline_logs response) = [].
Proof. unfold pipeline_logs. destruct (Z.eqb _ 200); reflexivity. Qed.

(** [create_pipelines] with a repository id and the three stages of the
    constructor: the three turns of the loop. *)
Lemma create_pipelines_run (W : world) (s : state setup_repo.CreateAzureRepo) :
  truthy (setup_repo.new_repository_id (self s)) = true ->
  setup_repo.pipeline_stages (self s) = ["development"; "pull-request"; "release"] ->
  setup_repo.create_pipelines W s
  = match setup_repo.create_pipeline W "development"
            (mkState (self s) (events s ++ [creating_pipelines_log (self s)])%list) with
    | (Ok _, s1) =>
        match setup_repo.create_pipeline W "pull-request" s1 with
        | (Ok _, s2) =>
            match setup_repo.create_pipeline W "release" s2 with
            | (Ok _, s3) => (Ok tt, s3)
            | (Raise e, s3) => (Raise e, s3)
            end
        | (Raise e, s2) => (Raise e, s2)
        end
    | (Raise e, s1) => (Raise e, s1)
    end.
Proof.
  intros Hid Hstages. unfold setup_repo.create_pipelines, creating_pipelines_log; run_io.
  rewrite Hid, Hstages; cbn [negb for_each]. unfold bind, ret.
  destruct (setup_repo.create_pipeline W "development" _) as [[[]|e] s1]; [|reflexivity].
  destruct (setup_repo.create_pipeline W "pull-request" s1) as [[[]|e] s2]; [|reflexivity].
  destruct (setup_repo.create_pipeline W "release" s2) as [[[]|e] s3]; reflexivity.
Qed.

(** X11.  [create_pipelines] on a session with a repository id and the
    three stages of the constructor, when the response to the creation
    of the pull-request pipeline is an object with an "id": it returns,
    that id is what [cicd_pull_request_id] holds afterwards, whatever
    the status codes of the three responses, the other attributes are
    as before, and the calls are the three POSTs, for development,
    pull-request and release in that order. *)
Theorem create_pipelines_stores_pipeline_id (W : world)
    (s : state setup_repo.CreateAzureRepo) (kv : list (string * value))
    (id : value) :
  let this := self s in
  let t1 := (events s ++ [creating_pipelines_log this])%list in
  let r1 := server W t1 (pipeline_post this "development") in
  let t2 := (t1 ++ EHttp (pipeline_post this "development") :: pipeline_logs r1)%list in
  let r2 := server W t2 (pipeline_post this "pull-request") in
  let out := setup_repo.create_pipelines W s in
  truthy (setup_repo.new_repository_id this) = true ->
  setup_repo.pipeline_stages this = ["development"; "pull-request"; "release"] ->
  json_body r2 = Some (VDict kv) ->
  dict_lookup kv "id" = Some id ->
  fst out = Ok tt
  /\ setup_repo.cicd_pull_request_id (self (snd out)) = id
  /\ setup_repo.new_repository_id (self (snd out))
     = setup_repo.new_repository_id this
  /\ config_of (self (snd out)) = config_of this
  /\ http_calls (events (snd out))
     = (http_calls (events s)
        ++ [pipeline_post this "development";
            pipeline_post this "pull-request";
            pipeline_post this "release"])%list.
Proof.
  intros this t1 r1 t2 r2 out Htruthy Hstages Hjson Hkey. subst out.
  assert (Hid : subscript (VDict kv) "id" = Ok id)
    by (cbn [subscript]; rewrite Hkey; reflexivity).
  rewrite (create_pipelines_run W s Htruthy Hstages). fold this. fold t1.
  rewrite (create_pipeline_plain W "development" (mkState this t1) eq_refl).
  cbn [self events]. fold r1. fold t2.
  rewrite (create_pipeline_pull_request W (mkState this t2)).
  cbn [self events]. fold r2.
  rewrite (proj1 (handle_pull_request_pipeline_run_direct W r2
                    (mkState this (t2 ++ [EHttp (pipeline_post this "pull-request")])%list)
                    (VDict kv) id Hjson Hid)).
  cbn [self events].
  rewrite (create_pipeline_plain W "release" _ eq_refl).
  cbn [fst snd self events].
  split; [reflexivity|]. split; [reflexivity|].
  split; [reflexivity|]. split; [reflexivity|].
  unfold t2, t1.
  rewrite !http_calls_app; cbn [http_calls creating_pipelines_log].
  rewrite !http_calls_pipeline_logs, !app_nil_r, <- !app_assoc. reflexivity.
Qed.

Lemma create_pipelines_stores_pipeline_id_witness :
  fst (setup_repo.create_pipelines stalled_world (mkState demo_created [])) = Ok tt
  /\ setup_repo.cicd_pull_request_id
       (self (snd (setup_repo.create_pipelines stalled_world
                     (mkState demo_created []))))
     = VInt 7
  /\ setup_repo.new_repository_id
       (self (snd (setup_repo.create_pipelines stalled_world
                     (mkState demo_created []))))
     = VStr "123".
Proof.
  destruct (create_pipelines_stores_pipeline_id stalled_world
              (mkState demo_created []) [("id", VInt 7)] (VInt 7)
              eq_refl eq_refl eq_refl eq_refl) as [Hr [Hid [Hrepo _]]].
  split; [exact Hr | split; [exact Hid | exact Hrepo]].
Defined.

(** X12.  The calls of [create_pipelines], whenever it returns (session
    with a repository id and the three stages of the constructor): the
    three POSTs, for development, pull-request and release in that
    order, and one GET of the pipeline listing right after the
    pull-request POST exactly when the response to that POST gave no
    id.  Of the session, only [cicd_pull_request_id] can have changed. *)
Theorem create_pipelines_calls (W : world) (s : state setup_repo.CreateAzureRepo) :
  let this := self s in
  let t1 := (events s ++ [creating_pipelines_log this])%list in
  let r1 := server W t1 (pipeline_post this "development") in
  let t2 := (t1 ++ EHttp (pipeline_post this "development") :: pipeline_logs r1)%list in
  let r2 := server W t2 (pipeline_post this "pull-request") in
  let out := setup_repo.create_pipelines W s in
  truthy (setup_repo.new_repository_id this) = true ->
  setup_repo.pipeline_stages this = ["development"; "pull-request"; "release"] ->
  fst out = Ok tt ->
  pipeline_id_only this (self (snd out))
  /\ http_calls (events (snd out))
     = (http_calls (events s)
        ++ [pipeline_post this "development"; pipeline_post this "pull-request"]
        ++ (if answers_with_id r2 then [] else [pipelines_get this])
        ++ [pipeline_post this "release"])%list.
Proof.
  intros this t1 r1 t2 r2 out Htruthy Hstages. subst out.
  rewrite (create_pipelines_run W s Htruthy Hstages). fold this. fold t1.
  rewrite (create_pipeline_plain W "development" (mkState this t1) eq_refl).
  cbn [self events]. fold r1. fold t2.
  rewrite (create_pipeline_pull_request W (mkState this t2)).
  cbn [self events]. fold r2.
  set (s2 := mkState this (t2 ++ [EHttp (pipeline_post this "pull-request")])%list).
  assert (Hcalls2 : http_calls (events s2)
                    = (http_calls (events s)
                       ++ [pipeline_post this "development";
                           pipeline_post this "pull-request"])%list).
  { unfold s2, t2, t1; cbn [events].
    rewrite !http_calls_app; cbn [http_calls creating_pipelines_log].
    rewrite http_calls_pipeline_logs, !app_nil_r, <- !app_assoc. reflexivity. }
  assert (Hpost : forall o, pipeline_id_only this o ->
                    pipeline_post o "release" = pipeline_post this "release").
  { intros o [Ho | [id Ho]]; subst o; reflexivity. }
  destruct (handle_cases W r2 s2) as [[Hid [id Hrun]] | [[Hid Hrun] | [Hid [e Hrun]]]];
    rewrite Hrun, Hid.
  - rewrite create_pipeline_plain by reflexivity. cbn [fst snd self events].
    intros _. split; [apply pipeline_id_only_set|].
    rewrite !http_calls_app; cbn [http_calls].
    rewrite !http_calls_pipeline_logs, Hcalls2, !app_nil_r, <- !app_assoc.
    reflexivity.
  - pose proof (lookup_pipelines_calls W s2) as Hget.
    pose proof (lookup_pipelines_keeps W s2) as Hkeep2.
    destruct (lookup_pipelines W s2) as [[[]|e] s3]; cbn [fst snd] in *;
      [|discriminate].
    rewrite create_pipeline_plain by reflexivity. cbn [fst snd self events].
    intros _. split; [exact Hkeep2|].
    rewrite !http_calls_app; cbn [http_calls].
    rewrite !http_calls_pipeline_logs, Hget, Hcalls2, (Hpost (self s3) Hkeep2).
    rewrite !app_nil_r, <- !app_assoc. reflexivity.
  - cbn [fst]. discriminate.
Qed.

Lemma create_pipelines_calls_witness :
  http_calls (events (snd (setup_repo.create_pipelines existing_world
                             (mkState demo_created []))))
  = [pipeline_post demo_created "development";
     pipeline_post demo_created "pull-request";
     pipelines_get demo_created;
     pipeline_post demo_created "release"].
Proof.
  exact (proj2 (create_pipelines_calls existing_world (mkState demo_created [])
                  eq_refl eq_refl eq_refl)).
Defined.

(** X13.  [git_migrate] runs [git remote set-url] and, only when that
    succeeded, [git push]; it returns [True] when both succeeded.  A
    failure that is a [SubprocessError] gives [False]; any other
    exception (git not installed, say) goes through.  In no case does it
    make an HTTP call or change the session. *)
Theorem git_migrate_outcomes (W : world) (s : state setup_repo.CreateAzureRepo) :
  let this := self s in
  let t1 := (events s ++ [ELog INFO "Starting git migration"])%list in
  let set_url := subprocess_exit W t1 (setup_repo.set_url_argv this) in
  let push :=
    subprocess_exit W (t1 ++ [ERun (setup_repo.set_url_argv this)])%list
      setup_repo.push_argv in
  let out := setup_repo.git_migrate W s in
  let failed (e : exn) : result bool :=
    if caught_by e [SubprocessError] then Ok false else Raise e in
  self (snd out) = this
  /\ http_calls (events (snd out)) = http_calls (events s)
  /\ (set_url = None -> push = None ->
      fst out = Ok true
      /\ git_runs (events (snd out))
         = (git_runs (events s)
            ++ [setup_repo.set_url_argv this; setup_repo.push_argv])%list)
  /\ (forall e, set_url = Some e ->
        fst out = failed e
        /\ git_runs (events (snd out))
           = (git_runs (events s) ++ [setup_repo.set_url_argv this])%list)
  /\ (forall e, set_url = None -> push = Some e ->
        fst out = failed e
        /\ git_runs (events (snd out))
           = (git_runs (events s)
              ++ [setup_repo.set_url_argv this; setup_repo.push_argv])%list).
Proof.
  intros this t1 set_url push out failed. subst out failed.
  unfold setup_repo.git_migrate; run_io. fold this. fold t1. fold set_url.
  destruct set_url as [e1|] eqn:H1.
  - run_io. destruct (caught_by e1 [SubprocessError]) eqn:Hc; run_io;
      (split; [reflexivity|]);
      (split; [unfold t1; rewrite !http_calls_app; cbn [http_calls];
               rewrite ?app_nil_r; reflexivity|]);
      (split; [discriminate|]);
      (split; [|intros e He; discriminate]);
      intros e He; inversion He; subst; rewrite Hc;
      (split; [reflexivity|]);
      unfold t1; rewrite !git_runs_app; cbn [git_runs];
      rewrite ?app_nil_r; reflexivity.
  - run_io. fold push. destruct push as [e2|] eqn:H2.
    + run_io. destruct (caught_by e2 [SubprocessError]) eqn:Hc; run_io;
        (split; [reflexivity|]);
        (split; [unfold t1; rewrite !http_calls_app; cbn [http_calls];
                 rewrite ?app_nil_r; reflexivity|]);
        (split; [discriminate|]);
        (split; [intros e He; discriminate|]);
        intros e _ He; inversion He; subst; rewrite Hc;
        (split; [reflexivity|]);
        unfold t1; rewrite !git_runs_app; cbn [git_runs];
        rewrite ?app_nil_r, <- ?app_assoc; reflexivity.
    + run_io. split; [reflexivity|].
      split; [unfold t1; rewrite !http_calls_app; cbn [http_calls];
              rewrite ?app_nil_r; reflexivity|].
      split; [|split; intros; discriminate].
      intros _ _. split; [reflexivity|].
      unfold t1; rewrite !git_runs_app; cbn [git_runs].
      rewrite ?app_nil_r, <- ?app_assoc. reflexivity.
Qed.

Lemma git_migrate_outcomes_witness :
  (fst (setup_repo.git_migrate fabrikam_world (mkState demo_ready [])) = Ok true
   /\ git_runs (events (snd (setup_repo.git_migrate fabrikam_world
                               (mkState demo_ready []))))
      = [setup_repo.set_url_argv demo_ready; setup_repo.push_argv])
  /\ fst (setup_repo.git_migrate push_fails_world (mkState demo_ready [])) = Ok false
  /\ fst (setup_repo.git_migrate no_git_world (mkState demo_ready []))
     = Raise (Exn FileNotFoundError "[Errno 2] No such file or directory: 'git'").
Proof.
  split; [|split].
  - exact (proj1 (proj2 (proj2 (git_migrate_outcomes fabrikam_world
                                  (mkState demo_ready []))))
             eq_refl eq_refl).
  - exact (proj1 (proj2 (proj2 (proj2 (proj2 (git_migrate_outcomes push_fails_world
                                                (mkState demo_ready [])))))
                    git_failure eq_refl eq_refl)).
  - exact (proj1 (proj1 (proj2 (proj2 (proj2 (git_migrate_outcomes no_git_world
                                                (mkState demo_ready [])))))
                    (Exn FileNotFoundError "[Errno 2] No such file or directory: 'git'")
                    eq_refl)).
Defined.

(** X14.  [create_pull_request_policy] with both ids set: exactly one
    POST, to the policy URL of the source project; its body asks for
    builds of the stored pull-request pipeline on the master branch of
    the stored repository; the result is [True] exactly when the answer
    is 200.  With or without the ids, the session is never changed. *)
Theorem create_pull_request_policy_posts (W : world)
    (s : state setup_repo.CreateAzureRepo) :
  let this := self s in
  let t1 := (events s ++ [ELog INFO "Setting build validation policy for pull requests"])%list in
  let response := server W t1 (policy_post this) in
  let out := setup_repo.create_pull_request_policy W s in
  self (snd out) = this
  /\ (truthy (setup_repo.cicd_pull_request_id this) = true ->
      truthy (setup_repo.new_repository_id this) = true ->
      fst out = Ok (Z.eqb (status_code response) 200)
      /\ http_calls (events (snd out))
         = (http_calls (events s) ++ [policy_post this])%list
      /\ call_url (policy_post this)
         = "https://dev.azure.com/" ++ setup_repo.organization this ++ "/"
           ++ setup_repo.source_project_name this
           ++ "/_apis/policy/configurations?api-version="
           ++ setup_repo.azure_api_version this
      /\ exists settings scope,
           call_payload (policy_post this) = Json (setup_repo.policy_body this)
           /\ subscript (setup_repo.policy_body this) "settings" = Ok settings
           /\ subscript settings "buildDefinitionId"
              = Ok (setup_repo.cicd_pull_request_id this)
           /\ subscript settings "scope" = Ok (VList [scope])
           /\ subscript scope "repositoryId" = Ok (setup_repo.new_repository_id this)
           /\ subscript scope "refName" = Ok (VStr "refs/heads/master")).
Proof.
  intros this t1 response out. subst out. split.
  - unfold setup_repo.create_pull_request_policy; run_io.
    destruct (negb (truthy (setup_repo.cicd_pull_request_id (self s)))
              || negb (truthy (setup_repo.new_repository_id (self s)))); run_io;
      [reflexivity|].
    destruct (Z.eqb _ 200); reflexivity.
  - intros Hpipe Hrepo.
    unfold setup_repo.create_pull_request_policy; run_io.
    fold this. rewrite Hpipe, Hrepo; cbn [negb orb]; run_io.
    fold this. fold t1. fold (policy_post this). fold response.
    destruct (Z.eqb (status_code response) 200); run_io;
      (split; [reflexivity|]);
      (split; [unfold t1; rewrite !http_calls_app; cbn [http_calls];
               rewrite ?app_nil_r; reflexivity|]);
      (split; [reflexivity|]);
      (eexists; eexists; repeat split).
Qed.

Lemma create_pull_request_policy_posts_witness :
  fst (setup_repo.create_pull_request_policy fabrikam_world (mkState demo_ready []))
  = Ok true
  /\ http_calls (events (snd (setup_repo.create_pull_request_policy fabrikam_world
                                (mkState demo_ready []))))
     = [policy_post demo_ready].
Proof.
  destruct (proj2 (create_pull_request_policy_posts fabrikam_world
                     (mkState demo_ready [])) eq_refl eq_refl) as [Hr [Hc _]].
  split; [exact Hr | exact Hc].
Defined.

(** Strings with the same ending. *)
Lemma append_same_tail (s1 s2 t : string) : s1 ++ t = s2 ++ t -> s1 = s2.
Proof.
  assert (Hlen : forall a b, String.length (a ++ b)
                             = String.length a + String.length b).
  { induction a as [|c a IH]; intros b; cbn; [reflexivity | rewrite IH; reflexivity]. }
  revert s2; induction s1 as [|c s1 IH]; intros [|c2 s2] H; cbn in H.
  - reflexivity.
  - exfalso. apply (f_equal String.length) in H. cbn in H. rewrite Hlen in H. lia.
  - exfalso. apply (f_equal String.length) in H. cbn in H. rewrite Hlen in H. lia.
  - inversion H; subst. f_equal. apply IH. assumption.
Qed.

(** X15.  No two stages share a pipeline definition: [pipeline_path]
    gives "/azure-pipelines.yml" for "development" and for no other
    stage, and different stages have different paths. *)
Theorem pipeline_path_injective (a b : string) :
  setup_repo.pipeline_path a = setup_repo.pipeline_path b -> a = b.
Proof.
  unfold setup_repo.pipeline_path.
  destruct (String.eqb_spec a "development") as [Ha|Ha];
    destruct (String.eqb_spec b "development") as [Hb|Hb]; intros H.
  - congruence.
  - exfalso. cbn in H. inversion H.
  - exfalso. cbn in H. inversion H.
  - change ("/azure-pipelines-" ++ a ++ ".yml")
      with ("/azure-pipelines-" ++ (a ++ ".yml")) in H.
    cbn [append] in H. inversion H as [H'].
    apply (append_same_tail a b ".yml"). exact H'.
Qed.

Lemma pipeline_path_injective_witness :
  setup_repo.pipeline_path "development" = "/azure-pipelines.yml"
  /\ "release" = "release".
Proof.
  split; [reflexivity|].
  apply (pipeline_path_injective "release" "release"). reflexivity.
Defined.

(** ** The logger factory and the tags *)



(** X17.  [configure_logging] leaves the logger with the console
    handler alone, or with no handler when [console_output] is false:
    whatever handlers the logger had are gone, [file_output] and
    [log_file] add none, and configuring a logger again with the same
    arguments changes nothing, so handlers do not pile up. *)
Theorem configure_logging_handlers (lg : logging_config.Logger)
    (inherited inherited' : bool) (log_level : Z) (log_file : option string)
    (log_format date_format : string) (console_output file_output : bool)
    (max_bytes backup_count : Z) (propagate : bool) :
  let configured :=
    logging_config.configure_logging lg inherited log_level log_file log_format
      date_format console_output file_output max_bytes backup_count propagate in
  logging_config.handlers configured
  = (if console_output
     then [logging_config.StreamHandler logging_config.stdout log_format
             date_format log_level]
     else [])
  /\ logging_config.logger_level configured = log_level
  /\ logging_config.logger_propagate configured = propagate
  /\ logging_config.configure_logging configured inherited' log_level log_file
       log_format date_format console_output file_output max_bytes backup_count
       propagate
     = configured.
Proof.
  assert (Hcleared : forall l i,
            (if logging_config.hasHandlers l i then []
             else logging_config.handlers l) = []).
  { intros l i. unfold logging_config.hasHandlers.
    destruct (logging_config.handlers l); [|reflexivity].
    destruct (logging_config.logger_propagate l), i; reflexivity. }
  intros configured. subst configured.
  unfold logging_config.configure_logging.
  cbn [logging_config.handlers logging_config.logger_level
       logging_config.logger_propagate logging_config.logger_name].
  rewrite !Hcleared. repeat split.
Qed.

(** X18.  The tags of [create_tags]: six keys, in a fixed order.  The
    branch tag is "master" when BUILD_SOURCEBRANCHNAME is unset or is
    "merge", and the value of the variable otherwise (the empty string
    included), so it is never "merge"; the repository tag is
    BUILD_REPOSITORY_NAME, or "local" when that is unset. *)
Theorem create_tags_branch_name (W : world) (environment : value) :
  let tags := app.create_tags W environment in
  let branch := getenv W "BUILD_SOURCEBRANCHNAME" in
  map fst tags
  = ["DeploymentMethod"; "CICD"; "RepositoryName"; "Environment"; "BranchName"; "Name"]
  /\ (branch = None \/ branch = Some "merge" ->
      dict_lookup tags "BranchName" = Some (VStr "master"))
  /\ (forall b, branch = Some b -> b <> "merge" ->
      dict_lookup tags "BranchName" = Some (VStr b))
  /\ dict_lookup tags "BranchName" <> Some (VStr "merge")
  /\ dict_lookup tags "Environment" = Some environment
  /\ dict_lookup tags "RepositoryName"
     = Some (VStr match getenv W "BUILD_REPOSITORY_NAME" with
                  | Some r => r
                  | None => "local"
                  end).
Proof.
  intros tags branch. subst tags. unfold app.create_tags. fold branch.
  cbn [map fst dict_lookup String.eqb Ascii.eqb Bool.eqb].
  split; [reflexivity|]. split; [|split; [|split; [|split; reflexivity]]].
  - intros [H|H]; rewrite H; reflexivity.
  - intros b Hb Hne. rewrite Hb.
    destruct (String.eqb_spec b "merge"); [contradiction | reflexivity].
  - destruct branch as [b|]; [|discriminate].
    destruct (String.eqb_spec b "merge") as [Hb|Hb]; [discriminate|].
    intros H; inversion H; contradiction.
Qed.

Lemma create_tags_branch_name_witness :
  dict_lookup (app.create_tags merge_world (VStr "developer")) "BranchName"
  = Some (VStr "master")
  /\ dict_lookup (app.create_tags fabrikam_world (VStr "developer")) "BranchName"
     = Some (VStr "master").
Proof.
  split.
  - apply (proj1 (proj2 (create_tags_branch_name merge_world (VStr "developer")))).
    right; reflexivity.
  - apply (proj1 (proj2 (create_tags_branch_name fabrikam_world (VStr "developer")))).
    left; reflexivity.
Defined.

(** X19.  [assign_tags] gives every tag to every stack and nothing
    else: a call [Tags.of(stack).add(key, value)] is made exactly for the
    stacks of [self.stacks] and the entries of [self.tags], one call per
    stack and entry, stack by stack. *)
Theorem assign_tags_every_stack {Stack : Type} (stacks : list Stack)
    (tags : list (string * value)) :
  (forall stack key v,
     In (stack, key, v) (app.assign_tags stacks tags)
     <-> In stack stacks /\ In (key, v) tags)
  /\ length (app.assign_tags stacks tags) = length stacks * length tags
  /\ map (fun call => fst (fst call)) (app.assign_tags stacks tags)
     = flat_map (fun stack => repeat stack (length tags)) stacks.
Proof.
  unfold app.assign_tags. split; [|split].
  - intros stack key v. rewrite in_flat_map. split.
    + intros [st [Hst Hin]]. apply in_map_iff in Hin as [[k v'] [Heq Hkv]].
      cbn [fst snd] in Heq. inversion Heq; subst. split; assumption.
    + intros [Hst Hkv]. exists stack. split; [exact Hst|].
      apply in_map_iff. exists (key, v). split; [reflexivity | exact Hkv].
  - induction stacks as [|st rest IH]; [reflexivity|].
    cbn [flat_map length]. rewrite length_app, length_map, IH. reflexivity.
  - induction stacks as [|st rest IH]; [reflexivity|].
    cbn [flat_map]. rewrite map_app, IH. f_equal.
    rewrite map_map. cbn [fst].
    clear. induction tags as [|kv tags IH]; [reflexivity|].
    cbn [map length repeat]. rewrite IH. reflexivity.
Qed.

(** ** The credentials of the provisioning session *)

Lemma digit_value_digit (k : N) :
  (k < 64)%N -> digit_value (base64.digit k) = Some k
               /\ Ascii.eqb (base64.digit k) "=" = false.
Proof.
  intros Hk. destruct k as [|p]; [split; reflexivity|].
  do 6 (destruct p as [p|p|]; try (split; reflexivity)); exfalso; lia.
Qed.

Lemma digit_value_any (k : N) :
  digit_value (base64.digit k) = Some (k mod 64)%N
  /\ Ascii.eqb (base64.digit k) "=" = false.
Proof.
  assert (Hdigit : base64.digit k = base64.digit (k mod 64)).
  { unfold base64.digit. rewrite N.Div0.mod_mod. reflexivity. }
  rewrite Hdigit. apply digit_value_digit. apply N.mod_lt. discriminate.
Qed.

Lemma b64_group1 (a : N) :
  (a < 256)%N ->
  let n := (a * 65536)%N in
  (((n / 262144) mod 64) * 4 + ((n / 4096) mod 64) / 16 = a)%N.
Proof. intros Ha n. subst n. zify; Z.to_euclidean_division_equations; lia. Qed.

Lemma b64_group2 (a b : N) :
  (a < 256)%N -> (b < 256)%N ->
  let n := (a * 65536 + b * 256)%N in
  (((n / 262144) mod 64) * 4 + ((n / 4096) mod 64) / 16 = a)%N
  /\ ((((n / 4096) mod 64) mod 16) * 16 + ((n / 64) mod 64) / 4 = b)%N.
Proof.
  intros Ha Hb n. subst n.
  split; zify; Z.to_euclidean_division_equations; lia.
Qed.

Lemma b64_group3 (a b c : N) :
  (a < 256)%N -> (b < 256)%N -> (c < 256)%N ->
  let n := (a * 65536 + b * 256 + c)%N in
  (((n / 262144) mod 64) * 4 + ((n / 4096) mod 64) / 16 = a)%N
  /\ ((((n / 4096) mod 64) mod 16) * 16 + ((n / 64) mod 64) / 4 = b)%N
  /\ ((((n / 64) mod 64) mod 4) * 64 + n mod 64 = c)%N.
Proof.
  intros Ha Hb Hc n. subst n.
  repeat split; zify; Z.to_euclidean_division_equations; lia.
Qed.

(** Decoding what [encode_bytes] wrote gives the bytes back. *)
Lemma b64decode_encode_bytes (bs : list N) :
  Forall (fun b => (b < 256)%N) bs ->
  b64decode (list_ascii_of_string (base64.encode_bytes bs)) = Some bs.
Proof.
  remember (length bs) as n eqn:Hn.
  revert bs Hn. induction n as [n IH] using (well_founded_induction lt_wf).
  intros bs Hn Hall.
  destruct bs as [|a [|b [|c rest]]].
  - reflexivity.
  - inversion Hall as [|? ? Ha _]; subst.
    cbn [base64.encode_bytes list_ascii_of_string b64decode].
    destruct (digit_value_any (a * 65536 / 262144)) as [H1 _].
    destruct (digit_value_any (a * 65536 / 4096)) as [H2 _].
    rewrite H1, H2. cbn [Ascii.eqb Bool.eqb].
    rewrite (b64_group1 a Ha). reflexivity.
  - inversion Hall as [|? ? Ha Hall']; subst.
    inversion Hall' as [|? ? Hb _]; subst.
    cbn [base64.encode_bytes list_ascii_of_string b64decode].
    destruct (digit_value_any ((a * 65536 + b * 256) / 262144)) as [H1 _].
    destruct (digit_value_any ((a * 65536 + b * 256) / 4096)) as [H2 _].
    destruct (digit_value_any ((a * 65536 + b * 256) / 64)) as [H3 E3].
    rewrite H1, H2, E3, H3. cbn [Ascii.eqb Bool.eqb].
    destruct (b64_group2 a b Ha Hb) as [G1 G2]. rewrite G1, G2. reflexivity.
  - inversion Hall as [|? ? Ha Hall']; subst.
    inversion Hall' as [|? ? Hb Hall'']; subst.
    inversion Hall'' as [|? ? Hc Hrest]; subst.
    cbn [base64.encode_bytes list_ascii_of_string b64decode].
    destruct (digit_value_any ((a * 65536 + b * 256 + c) / 262144)) as [H1 _].
    destruct (digit_value_any ((a * 65536 + b * 256 + c) / 4096)) as [H2 _].
    destruct (digit_value_any ((a * 65536 + b * 256 + c) / 64)) as [H3 E3].
    destruct (digit_value_any (a * 65536 + b * 256 + c)) as [H4 E4].
    rewrite H1, H2, E3, H3, E4, H4.
    rewrite (IH (length rest)); [| cbn [length]; lia | reflexivity | exact Hrest].
    destruct (b64_group3 a b c Ha Hb Hc) as [G1 [G2 G3]]. rewrite G1, G2, G3.
    reflexivity.
Qed.

Lemma forallb_map {A B : Type} (f : B -> bool) (g : A -> B) (l : list A) :
  forallb f (map g l) = forallb (fun x => f (g x)) l.
Proof. induction l as [|x l IH]; cbn; [reflexivity | rewrite IH; reflexivity]. Qed.

Lemma codes_are_bytes (s : string) :
  Forall (fun b => (b < 256)%N) (map N_of_ascii (list_ascii_of_string s)).
Proof.
  induction s as [|c s IH]; cbn; constructor; [apply N_ascii_bounded | exact IH].
Qed.

(** X20.  The constructor of [CreateAzureRepo].  For a token made of
    ASCII characters it gives a session with both ids unset, whose
    Authorization header is "Basic " followed by base64 text that
    decodes to a colon followed by the token.  For a token with any
    other character it raises [UnicodeEncodeError], and then [main]
    ends with that exception before anything is logged or called. *)
Theorem init_credentials (pa_token new_repo_name : string) :
  (is_ascii pa_token = true ->
   exists o auth,
     setup_repo.__init__ pa_token new_repo_name = Ok o
     /\ setup_repo.new_repo_name o = new_repo_name
     /\ setup_repo.new_repository_id o = VNone
     /\ setup_repo.cicd_pull_request_id o = VNone
     /\ In ("Authorization", "Basic " ++ auth) (setup_repo.headers o)
     /\ b64decode (list_ascii_of_string auth)
        = Some (map N_of_ascii (list_ascii_of_string (":" ++ pa_token))))
  /\ (is_ascii pa_token = false ->
      (exists e, setup_repo.__init__ pa_token new_repo_name = Raise e
                 /\ exn_cls e = UnicodeEncodeError)
      /\ forall W t,
           exists e, setup_repo.main W (setup_repo.mkNamespace pa_token new_repo_name) t
                     = (Raise e, None, t)).
Proof.
  assert (Hcheck : forallb (fun c => N.ltb c 128)
                     (map N_of_ascii (list_ascii_of_string (":" ++ pa_token)))
                   = is_ascii pa_token).
  { rewrite forallb_map. reflexivity. }
  split.
  - intros Hascii.
    unfold setup_repo.__init__, base64.b64encode_ascii, base64.encode_ascii.
    rewrite Hcheck, Hascii.
    eexists; eexists. split; [reflexivity|].
    cbn [setup_repo.new_repo_name setup_repo.new_repository_id
         setup_repo.cicd_pull_request_id setup_repo.headers].
    repeat split.
    + right; left; reflexivity.
    + apply b64decode_encode_bytes. apply codes_are_bytes.
  - intros Hascii.
    assert (Hinit : exists e, setup_repo.__init__ pa_token new_repo_name = Raise e
                              /\ exn_cls e = UnicodeEncodeError).
    { unfold setup_repo.__init__, base64.b64encode_ascii, base64.encode_ascii.
      rewrite Hcheck, Hascii. eexists; split; reflexivity. }
    split; [exact Hinit|].
    intros W t. destruct Hinit as [e [He _]]. exists e.
    unfold setup_repo.main.
    cbn [setup_repo.azure_access_token setup_repo.repository_name].
    rewrite He. reflexivity.
Qed.

Lemma init_credentials_witness :
  exists o auth,
    setup_repo.__init__ "token" "demo" = Ok o
    /\ setup_repo.new_repo_name o = "demo"
    /\ setup_repo.new_repository_id o = VNone
    /\ setup_repo.cicd_pull_request_id o = VNone
    /\ In ("Authorization", "Basic " ++ auth) (setup_repo.headers o)
    /\ b64decode (list_ascii_of_string auth)
       = Some (map N_of_ascii (list_ascii_of_string ":token")).
Proof.
  exact (proj1 (init_credentials "token" "demo") eq_refl).
Defined.

(** ** What the later stages leave alone *)

Section Keeps.
Import setup_repo.
Variable W : world.

Lemma pipeline_id_only_trans (this o o' : CreateAzureRepo) :
  pipeline_id_only this o -> pipeline_id_only o o' -> pipeline_id_only this o'.
Proof.
  intros [H1 | [id1 H1]] [H2 | [id2 H2]]; subst.
  - left; reflexivity.
  - right; exists id2; reflexivity.
  - right; exists id1; reflexivity.
  - right; exists id2; reflexivity.
Qed.

Lemma create_pipeline_keeps (stage : string) (s : state CreateAzureRepo) :
  pipeline_id_only (self s) (self (snd (create_pipeline W stage s))).
Proof.
  destruct (String.eqb stage "pull-request") eqn:Hstage.
  - apply String.eqb_eq in Hstage. subst stage.
    rewrite create_pipeline_pull_request.
    set (s1 := mkState (self s)
                 (events s ++ [EHttp (pipeline_post (self s) "pull-request")])%list).
    destruct (handle_cases W (server W (events s)
                                (pipeline_post (self s) "pull-request")) s1)
      as [[_ [id Hrun]] | [[_ Hrun] | [_ [e Hrun]]]]; rewrite Hrun.
    + cbn [snd self]. apply pipeline_id_only_set.
    + pose proof (lookup_pipelines_keeps W s1) as Hk. cbn [self s1] in Hk.
      destruct (lookup_pipelines W s1) as [[[]|e] s2]; cbn [snd self] in *; exact Hk.
    + cbn [snd self s1]. apply pipeline_id_only_refl.
  - rewrite (create_pipeline_plain W stage s Hstage). cbn [snd self].
    apply pipeline_id_only_refl.
Qed.

Lemma create_pipelines_keeps (s : state CreateAzureRepo) :
  pipeline_id_only (self s) (self (snd (create_pipelines W s))).
Proof.
  assert (Hloop : forall stages s0,
            pipeline_id_only (self s0)
              (self (snd (for_each stages (create_pipeline W) s0)))).
  { induction stages as [|stage rest IH]; intros s0; cbn [for_each].
    - apply pipeline_id_only_refl.
    - unfold bind. pose proof (create_pipeline_keeps stage s0) as Hk.
      destruct (create_pipeline W stage s0) as [[[]|e] s1]; cbn [snd] in *.
      + apply (pipeline_id_only_trans _ _ _ Hk (IH s1)).
      + exact Hk. }
  unfold create_pipelines; run_io.
  destruct (negb (truthy (new_repository_id (self s)))); run_io.
  - apply pipeline_id_only_refl.
  - apply (Hloop (pipeline_stages (self s))
             (mkState (self s)
                (events s ++ [ELog INFO ("Creating new Azure pipelines on repository: "
                                         ++ new_repo_name (self s))])%list)).
Qed.

Lemma git_migrate_keeps (s : state CreateAzureRepo) :
  self (snd (git_migrate W s)) = self s.
Proof.
  unfold git_migrate; run_io.
  destruct (subprocess_exit W _ (set_url_argv (self s))) as [e1|]; run_io.
  - destruct (caught_by e1 [SubprocessError]); reflexivity.
  - destruct (subprocess_exit W _ push_argv) as [e2|]; run_io; [|reflexivity].
    destruct (caught_by e2 [SubprocessError]); reflexivity.
Qed.

Lemma create_policy_keeps (s : state CreateAzureRepo) :
  self (snd (create_pull_request_policy W s)) = self s.
Proof.
  unfold create_pull_request_policy; run_io.
  destruct (negb (truthy (cicd_pull_request_id (self s)))
            || negb (truthy (new_repository_id (self s)))); run_io;
    [reflexivity|].
  destruct (Z.eqb _ 200); reflexivity.
Qed.

End Keeps.

(** X21.  Once create-or-find repository is over, the other stages of
    the workflow leave the session alone but for the id of the
    pull-request pipeline: the repository id, the names, the URLs parts
    and the headers at the end of the workflow are those the first
    stage left; and when the first stage did not return [True], nothing
    of the session changes after it. *)
Theorem workflow_keeps_repository (W : world)
    (s0 : state setup_repo.CreateAzureRepo) :
  let first := setup_repo.create_azure_devops_repo W s0 in
  let final := snd (setup_repo.workflow W s0) in
  pipeline_id_only (self (snd first)) (self final)
  /\ setup_repo.new_repository_id (self final)
     = setup_repo.new_repository_id (self (snd first))
  /\ config_of (self final) = config_of (self (snd first))
  /\ (fst first <> Ok true -> self final = self (snd first)).
Proof.
  intros first final.
  assert (Hkeep : pipeline_id_only (self (snd first)) (self final)
                  /\ (fst first <> Ok true -> self final = self (snd first))).
  { subst final. rewrite workflow_run. fold first.
    destruct first as [[[|]|e] s1]; cbn [fst snd self].
    - split; [|intros H; exfalso; apply H; reflexivity].
      pose proof (create_pipelines_keeps W s1) as H2.
      destruct (setup_repo.create_pipelines W s1) as [[[]|e2] s2]; cbn [snd] in *;
        [|exact H2].
      pose proof (git_migrate_keeps W s2) as H3.
      destruct (setup_repo.git_migrate W s2) as [[b3|e3] s3]; cbn [snd] in *;
        [|rewrite H3; exact H2].
      pose proof (create_policy_keeps W s3) as H4.
      destruct (setup_repo.create_pull_request_policy W s3) as [[b4|e4] s4];
        cbn [snd] in *; rewrite H4, H3; exact H2.
    - split; [apply pipeline_id_only_refl | reflexivity].
    - split; [apply pipeline_id_only_refl | reflexivity]. }
  destruct Hkeep as [Hk Hfail].
  split; [exact Hk|]. split; [|split; [|exact Hfail]].
  - destruct Hk as [Hk | [id Hk]]; rewrite Hk; reflexivity.
  - destruct Hk as [Hk | [id Hk]]; rewrite Hk; reflexivity.
Qed.
